(** * junction25: the Gemini bridge script and the pixel-art image script

    A shallow embedding of [gemini_api_bridge.py] and [pixelart.py].

    Python objects obtained from [json.loads] are values of [pyobj];
    exceptions are values of [exn] and a computation that may raise has type
    [result A].  The network is an oracle [request -> result pyobj] standing
    for [urlopen], [read], [decode] and [json.loads] taken together; the file
    system is a finite map from paths to nodes.

    Limits of the model: JSON numbers are integers (no floats), and a
    character of a [str] is one of the 256 code points of [ascii]. *)

From Stdlib Require Import String Ascii ZArith NArith List Bool Lia.
From Stdlib Require Import Decimal DecimalString DecimalZ DecimalN DecimalPos DecimalFacts.
From Stdlib.Strings Require Import Byte.
From stdpp Require Import gmap strings.
Import ListNotations.

Open Scope string_scope.
#[local] Set Warnings "-register-all".
#[local] Arguments String.append !s1 s2 : simpl nomatch.

(** ** Computations that may raise *)

(** What [e.read().decode("utf-8")] does on the body of an HTTP error
    response: it yields the text, or the bytes are not UTF-8 and [decode]
    raises. *)
Inductive body_read :=
| BodyText (text : string)
| BodyUndecodable (msg : string).

(** The exceptions the two scripts can meet; every one of them is an instance
    of Python's [Exception].  The string of each of the plain ones is its
    [str(e)]. *)
Inductive exn :=
| HTTPError (code : Z) (reason : string) (body : body_read)
| URLError (reason : string)
| TypeError (msg : string)
| KeyError (msg : string)
| IndexError (msg : string)
| AttributeError (msg : string)
| ValueError (msg : string)
| UnicodeDecodeError (msg : string)
| binascii_Error (msg : string)
| OSError (msg : string)
| OtherException (msg : string).

Inductive result (A : Type) :=
| Return (a : A)
| Raise (e : exn).
Arguments Return {A} a.
Arguments Raise {A} e.

Definition bind {A B} (m : result A) (k : A -> result B) : result B :=
  match m with
  | Return a => k a
  | Raise e => Raise e
  end.

Notation "'let!' x ':=' m 'in' k" := (bind m (fun x => k))
  (at level 10, x name, m at level 100, k at level 200).

(** ** Integers as text *)

(** Python's [str(n)] for an [int]. *)
Definition str_int (n : Z) : string := NilZero.string_of_int (Z.to_int n).

Definition str_nat (n : nat) : string := str_int (Z.of_nat n).

(** ** Python objects *)

(** The objects [json.loads] builds.  A [dict] keeps its keys in insertion
    order and holds each key once. *)
Inductive pyobj :=
| PyNone
| PyBool (b : bool)
| PyInt (n : Z)
| PyStr (s : string)
| PyList (items : list pyobj)
| PyDict (members : list (string * pyobj)).

Section pyobj_induction.
Variable P : pyobj -> Prop.
Hypothesis HNone : P PyNone.
Hypothesis HBool : forall b, P (PyBool b).
Hypothesis HInt : forall n, P (PyInt n).
Hypothesis HStr : forall s, P (PyStr s).
Hypothesis HList : forall items, Forall P items -> P (PyList items).
Hypothesis HDict : forall members, Forall (fun kv => P (snd kv)) members -> P (PyDict members).

Fixpoint pyobj_nested_ind (v : pyobj) : P v :=
  match v with
  | PyNone => HNone
  | PyBool b => HBool b
  | PyInt n => HInt n
  | PyStr s => HStr s
  | PyList items =>
      HList items
        ((fix go (l : list pyobj) : Forall P l :=
            match l with
            | [] => @List.Forall_nil _ _
            | x :: l' => @List.Forall_cons _ _ x _ (pyobj_nested_ind x) (go l')
            end) items)
  | PyDict members =>
      HDict members
        ((fix go (l : list (string * pyobj)) : Forall (fun kv => P (snd kv)) l :=
            match l with
            | [] => @List.Forall_nil _ _
            | kv :: l' => @List.Forall_cons _ _ kv _ (pyobj_nested_ind (snd kv)) (go l')
            end) members)
  end.
End pyobj_induction.

(** [type(v).__name__] *)
Definition type_name (v : pyobj) : string :=
  match v with
  | PyNone => "NoneType"
  | PyBool _ => "bool"
  | PyInt _ => "int"
  | PyStr _ => "str"
  | PyList _ => "list"
  | PyDict _ => "dict"
  end.

(** [bool(v)]: what [if v] and [not v] test. *)
Definition truthy (v : pyobj) : bool :=
  match v with
  | PyNone => false
  | PyBool b => b
  | PyInt n => negb (n =? 0)%Z
  | PyStr s => match s with EmptyString => false | String _ _ => true end
  | PyList items => match items with [] => false | _ => true end
  | PyDict members => match members with [] => false | _ => true end
  end.

Definition isinstance_dict (v : pyobj) : bool :=
  match v with PyDict _ => true | _ => false end.
Definition isinstance_list (v : pyobj) : bool :=
  match v with PyList _ => true | _ => false end.
Definition isinstance_str (v : pyobj) : bool :=
  match v with PyStr _ => true | _ => false end.

(** Lookup in a [dict]. *)
Fixpoint dict_get (k : string) (d : list (string * pyobj)) : option pyobj :=
  match d with
  | [] => None
  | (k', v) :: d' => if k' =? k then Some v else dict_get k d'
  end.

(** [d[k] = v]: an existing key keeps its place, a new key goes last. *)
Fixpoint dict_set (k : string) (v : pyobj) (d : list (string * pyobj)) : list (string * pyobj) :=
  match d with
  | [] => [(k, v)]
  | (k', v') :: d' => if k' =? k then (k', v) :: d' else (k', v') :: dict_set k v d'
  end.

(** [sub in s] for two strings. *)
Fixpoint substring_of (sub s : string) : bool :=
  String.prefix sub s ||
  match s with
  | EmptyString => false
  | String _ s' => substring_of sub s'
  end.

Definition is_str (k : string) (v : pyobj) : bool :=
  match v with PyStr s => s =? k | _ => false end.

(** [k in v] for a string [k]. *)
Definition py_contains (k : string) (v : pyobj) : result bool :=
  match v with
  | PyDict members => Return (match dict_get k members with Some _ => true | None => false end)
  | PyList items => Return (existsb (is_str k) items)
  | PyStr s => Return (substring_of k s)
  | _ => Raise (TypeError ("argument of type '" ++ type_name v ++ "' is not iterable"))
  end.

(** [len(v)] *)
Definition py_len (v : pyobj) : result nat :=
  match v with
  | PyDict members => Return (length members)
  | PyList items => Return (length items)
  | PyStr s => Return (String.length s)
  | _ => Raise (TypeError ("object of type '" ++ type_name v ++ "' has no len()"))
  end.

(** [v[k]] for a string [k]. *)
Definition getitem_key (v : pyobj) (k : string) : result pyobj :=
  match v with
  | PyDict members =>
      match dict_get k members with
      | Some x => Return x
      | None => Raise (KeyError ("'" ++ k ++ "'"))
      end
  | PyList _ => Raise (TypeError "list indices must be integers or slices, not str")
  | PyStr _ => Raise (TypeError "string indices must be integers, not 'str'")
  | _ => Raise (TypeError ("'" ++ type_name v ++ "' object is not subscriptable"))
  end.

(** [v[0]] *)
Definition getitem_0 (v : pyobj) : result pyobj :=
  match v with
  | PyList items =>
      match items with
      | x :: _ => Return x
      | [] => Raise (IndexError "list index out of range")
      end
  | PyStr s =>
      match s with
      | String c _ => Return (PyStr (String c EmptyString))
      | EmptyString => Raise (IndexError "string index out of range")
      end
  | PyDict _ => Raise (KeyError "0")
  | _ => Raise (TypeError ("'" ++ type_name v ++ "' object is not subscriptable"))
  end.

(** [v.get(k, default)] *)
Definition py_get (v : pyobj) (k : string) (default : pyobj) : result pyobj :=
  match v with
  | PyDict members =>
      Return (match dict_get k members with Some x => x | None => default end)
  | _ => Raise (AttributeError ("'" ++ type_name v ++ "' object has no attribute 'get'"))
  end.

(** [str(e)] *)
Definition str_exn (e : exn) : string :=
  match e with
  | HTTPError code reason _ => "HTTP Error " ++ str_int code ++ ": " ++ reason
  | URLError reason => "<urlopen error " ++ reason ++ ">"
  | TypeError msg | KeyError msg | IndexError msg | AttributeError msg
  | ValueError msg | UnicodeDecodeError msg | binascii_Error msg
  | OSError msg | OtherException msg => msg
  end.

(** ** Characters *)

Definition chr (n : nat) : ascii := ascii_of_nat n.
Definition ord (c : ascii) : N := N_of_ascii c.

Definition DQUOTE : ascii := Eval cbv in chr 34.
Definition BACKSLASH : ascii := Eval cbv in chr 92.
Definition NEWLINE : ascii := Eval cbv in chr 10.

Definition str1 (c : ascii) : string := String c EmptyString.

Fixpoint join (sep : string) (l : list string) : string :=
  match l with
  | [] => EmptyString
  | [x] => x
  | x :: l' => x ++ sep ++ join sep l'
  end.

Fixpoint spaces (n : nat) : string :=
  match n with
  | O => EmptyString
  | S n' => String " " (spaces n')
  end.

Definition hex_digit (n : N) : ascii :=
  if (n <? 10)%N then ascii_of_N (48 + n) else ascii_of_N (87 + n).

Definition hex_value (c : ascii) : option N :=
  let n := ord c in
  if ((48 <=? n) && (n <=? 57))%N then Some (n - 48)%N
  else if ((97 <=? n) && (n <=? 102))%N then Some (n - 87)%N
  else if ((65 <=? n) && (n <=? 70))%N then Some (n - 55)%N
  else None.

(** ** Python's [json] module, on [pyobj] *)

Module Json.

(** One character of [encode_basestring_ascii]: the short escapes, the
    printable ASCII characters as they are, [\u00xx] for the rest. *)
Definition escape_char (c : ascii) : string :=
  let n := ord c in
  if (n =? 34)%N then String BACKSLASH (str1 DQUOTE)
  else if (n =? 92)%N then String BACKSLASH (str1 BACKSLASH)
  else if (n =? 10)%N then String BACKSLASH "n"
  else if (n =? 13)%N then String BACKSLASH "r"
  else if (n =? 9)%N then String BACKSLASH "t"
  else if (n =? 8)%N then String BACKSLASH "b"
  else if (n =? 12)%N then String BACKSLASH "f"
  else if ((32 <=? n) && (n <=? 126))%N then str1 c
  else String BACKSLASH
         (String "u" (String "0" (String "0"
            (String (hex_digit (n / 16)) (str1 (hex_digit (n mod 16))))))).

Fixpoint escape (s : string) : string :=
  match s with
  | EmptyString => EmptyString
  | String c s' => escape_char c ++ escape s'
  end.

Definition encode_basestring_ascii (s : string) : string :=
  String DQUOTE (escape s ++ str1 DQUOTE).

(** [json.dumps(v)] with the default separators. *)
Fixpoint dumps (v : pyobj) : string :=
  match v with
  | PyNone => "null"
  | PyBool true => "true"
  | PyBool false => "false"
  | PyInt n => str_int n
  | PyStr s => encode_basestring_ascii s
  | PyList items => "[" ++ join ", " (map dumps items) ++ "]"
  | PyDict members =>
      "{" ++ join ", " (map (fun kv => encode_basestring_ascii (fst kv) ++ ": " ++ dumps (snd kv))
                          members) ++ "}"
  end.

Definition newline_indent (level : nat) : string :=
  String NEWLINE (spaces (4 * level)).

(** [json.dumps(v, indent=4)], at nesting depth [level]. *)
Fixpoint dumps_indent (level : nat) (v : pyobj) : string :=
  match v with
  | PyList ((_ :: _) as items) =>
      "[" ++ newline_indent (S level)
          ++ join ("," ++ newline_indent (S level)) (map (dumps_indent (S level)) items)
          ++ newline_indent level ++ "]"
  | PyDict ((_ :: _) as members) =>
      "{" ++ newline_indent (S level)
          ++ join ("," ++ newline_indent (S level))
               (map (fun kv => encode_basestring_ascii (fst kv) ++ ": "
                                 ++ dumps_indent (S level) (snd kv)) members)
          ++ newline_indent level ++ "}"
  | _ => dumps v
  end.

(** *** [json.loads] *)

Definition is_whitespace (c : ascii) : bool :=
  let n := ord c in
  ((n =? 32) || (n =? 9) || (n =? 10) || (n =? 13))%N.

Fixpoint skip_ws (s : string) : string :=
  match s with
  | String c s' => if is_whitespace c then skip_ws s' else s
  | EmptyString => s
  end.

Definition unescape (c : ascii) : option ascii :=
  let n := ord c in
  if (n =? 34)%N then Some DQUOTE
  else if (n =? 92)%N then Some BACKSLASH
  else if (n =? 47)%N then Some "/"%char
  else if (n =? 98)%N then Some (chr 8)
  else if (n =? 102)%N then Some (chr 12)
  else if (n =? 110)%N then Some (chr 10)
  else if (n =? 114)%N then Some (chr 13)
  else if (n =? 116)%N then Some (chr 9)
  else None.

(** The code point of [\uXXXX]; [None] when a digit is not hexadecimal or
    the code point is above 255, which a [string] here cannot hold. *)
Definition decode_uXXXX (h1 h2 h3 h4 : ascii) : option ascii :=
  match hex_value h1, hex_value h2, hex_value h3, hex_value h4 with
  | Some a, Some b, Some c, Some d =>
      let n := (((a * 16 + b) * 16 + c) * 16 + d)%N in
      if (n <? 256)%N then Some (ascii_of_N n) else None
  | _, _, _, _ => None
  end.

Definition prepend (c : option ascii) (r : option (string * string)) : option (string * string) :=
  match c, r with
  | Some c, Some (str, rest) => Some (String c str, rest)
  | _, _ => None
  end.

(** The text after an opening quote: the decoded string up to the closing
    quote, and what follows it. *)
Fixpoint scanstring (s : string) : option (string * string) :=
  match s with
  | EmptyString => None
  | String c s' =>
      if (ord c =? 34)%N then Some (EmptyString, s')
      else if (ord c =? 92)%N then
        match s' with
        | EmptyString => None
        | String e s'' =>
            if (ord e =? 117)%N then
              match s'' with
              | String h1 (String h2 (String h3 (String h4 r))) =>
                  prepend (decode_uXXXX h1 h2 h3 h4) (scanstring r)
              | _ => None
              end
            else prepend (unescape e) (scanstring s'')
        end
      else if (ord c <? 32)%N then None
      else prepend (Some c) (scanstring s')
  end.

Definition digit_of_char (c : ascii) : option (uint -> uint) :=
  match c with
  | "0"%char => Some D0 | "1"%char => Some D1 | "2"%char => Some D2
  | "3"%char => Some D3 | "4"%char => Some D4 | "5"%char => Some D5
  | "6"%char => Some D6 | "7"%char => Some D7 | "8"%char => Some D8
  | "9"%char => Some D9 | _ => None
  end.

(** The longest run of decimal digits at the head of [s]. *)
Fixpoint read_digits (s : string) : uint * string :=
  match s with
  | EmptyString => (Nil, s)
  | String c s' =>
      match digit_of_char c with
      | Some d => let (u, rest) := read_digits s' in (d u, rest)
      | None => (Nil, s)
      end
  end.

(** What follows an integer literal must not turn it into a float. *)
Definition starts_float_part (s : string) : bool :=
  match s with
  | String c _ => ((ord c =? 46) || (ord c =? 101) || (ord c =? 69))%N
  | EmptyString => false
  end.

(** [s] without its first character, when that character is [c]. *)
Definition starts_with (c : ascii) (s : string) : option string :=
  match s with
  | String c' rest => if Ascii.eqb c' c then Some rest else None
  | EmptyString => None
  end.

Fixpoint strip_prefix (p s : string) : option string :=
  match p with
  | EmptyString => Some s
  | String a p' =>
      match s with
      | String b s' => if Ascii.eqb a b then strip_prefix p' s' else None
      | EmptyString => None
      end
  end.

(** [0] or a run of digits that does not start with [0]. *)
Definition parse_nat (s : string) : option (Z * string) :=
  match starts_with "0" s with
  | Some rest => if starts_float_part rest then None else Some (0%Z, rest)
  | None =>
      match read_digits s with
      | (Nil, _) => None
      | (u, rest) => if starts_float_part rest then None else Some (Z.of_uint u, rest)
      end
  end.

Definition parse_number (s : string) : option (Z * string) :=
  match starts_with "-" s with
  | Some s' =>
      match parse_nat s' with
      | Some (n, rest) => Some ((- n)%Z, rest)
      | None => None
      end
  | None => parse_nat s
  end.

(** [dict(pairs)]: a repeated key keeps its first place and its last
    value. *)
Definition dict_of_pairs (pairs : list (string * pyobj)) : list (string * pyobj) :=
  fold_left (fun d kv => dict_set (fst kv) (snd kv) d) pairs [].

Fixpoint parse_value (fuel : nat) (s : string) : option (pyobj * string) :=
  match fuel with
  | O => None
  | S fuel =>
      match parse_number s with
      | Some (n, rest) => Some (PyInt n, rest)
      | None =>
      match strip_prefix "null" s, strip_prefix "true" s, strip_prefix "false" s with
      | Some rest, _, _ => Some (PyNone, rest)
      | _, Some rest, _ => Some (PyBool true, rest)
      | _, _, Some rest => Some (PyBool false, rest)
      | _, _, _ =>
      match starts_with DQUOTE s, starts_with "[" s, starts_with "{" s with
      | Some r, _, _ =>
          match scanstring r with
          | Some (str, rest) => Some (PyStr str, rest)
          | None => None
          end
      | _, Some r, _ =>
          match starts_with "]" (skip_ws r) with
          | Some rest => Some (PyList [], rest)
          | None =>
              match parse_items fuel (skip_ws r) with
              | Some (items, rest) => Some (PyList items, rest)
              | None => None
              end
          end
      | _, _, Some r =>
          match starts_with "}" (skip_ws r) with
          | Some rest => Some (PyDict [], rest)
          | None =>
              match parse_members fuel (skip_ws r) with
              | Some (pairs, rest) => Some (PyDict (dict_of_pairs pairs), rest)
              | None => None
              end
          end
      | _, _, _ => None
      end
      end
      end
  end
with parse_items (fuel : nat) (s : string) : option (list pyobj * string) :=
  match fuel with
  | O => None
  | S fuel =>
      match parse_value fuel s with
      | Some (v, r) =>
          match starts_with "]" (skip_ws r), starts_with "," (skip_ws r) with
          | Some rest, _ => Some ([v], rest)
          | _, Some r1 =>
              match parse_items fuel (skip_ws r1) with
              | Some (items, rest) => Some (v :: items, rest)
              | None => None
              end
          | _, _ => None
          end
      | None => None
      end
  end
with parse_members (fuel : nat) (s : string) : option (list (string * pyobj) * string) :=
  match fuel with
  | O => None
  | S fuel =>
      match starts_with DQUOTE s with
      | Some r =>
          match scanstring r with
          | Some (k, r1) =>
              match starts_with ":" (skip_ws r1) with
              | Some r2 =>
                  match parse_value fuel (skip_ws r2) with
                  | Some (v, r3) =>
                      match starts_with "}" (skip_ws r3), starts_with "," (skip_ws r3) with
                      | Some rest, _ => Some ([(k, v)], rest)
                      | _, Some r4 =>
                          match parse_members fuel (skip_ws r4) with
                          | Some (pairs, rest) => Some ((k, v) :: pairs, rest)
                          | None => None
                          end
                      | _, _ => None
                      end
                  | None => None
                  end
              | None => None
              end
          | None => None
          end
      | None => None
      end
  end.

(** [json.loads(s)]; [None] where Python raises, and where the document
    holds a float or a character above 255. *)
Definition loads (s : string) : option pyobj :=
  match parse_value (2 * String.length s + 2) (skip_ws s) with
  | Some (v, rest) =>
      match skip_ws rest with
      | EmptyString => Some v
      | String _ _ => None
      end
  | None => None
  end.

(** What may follow a value in a document without changing how the value
    reads: anything but a digit and the start of a fraction or exponent. *)
Definition value_end (s : string) : bool :=
  match s with
  | EmptyString => true
  | String c _ =>
      match digit_of_char c with
      | Some _ => false
      | None => negb (starts_float_part s)
      end
  end.

(** Fuel that [parse_value] needs to read [dumps v] back. *)
Fixpoint fuel_for (v : pyobj) : nat :=
  match v with
  | PyList items => S (fold_right (fun x acc => S (fuel_for x + acc)) 0 items)
  | PyDict members => S (fold_right (fun kv acc => S (fuel_for (snd kv) + acc)) 0 members)
  | _ => 1
  end.

(** The objects [json.loads] can build: the keys of every [dict] differ. *)
Fixpoint well_formed (v : pyobj) : Prop :=
  match v with
  | PyList items => fold_right (fun x acc => well_formed x /\ acc) True items
  | PyDict members =>
      NoDup (map fst members)
      /\ fold_right (fun kv acc => well_formed (snd kv) /\ acc) True members
  | _ => True
  end.

End Json.

(** ** What [print] writes for an object *)

Fixpoint contains_char (c : ascii) (s : string) : bool :=
  match s with
  | EmptyString => false
  | String c' s' => Ascii.eqb c' c || contains_char c s'
  end.

Definition repr_char (quote c : ascii) : string :=
  let n := ord c in
  if Ascii.eqb c quote || (n =? 92)%N then String BACKSLASH (str1 c)
  else if (n =? 9)%N then String BACKSLASH "t"
  else if (n =? 10)%N then String BACKSLASH "n"
  else if (n =? 13)%N then String BACKSLASH "r"
  else if ((n <? 32) || (n =? 127) || ((128 <=? n) && (n <=? 160)) || (n =? 173))%N
  then String BACKSLASH (String "x" (String (hex_digit (n / 16)) (str1 (hex_digit (n mod 16)))))
  else str1 c.

(** [repr(s)] for a [str]. *)
Definition repr_str (s : string) : string :=
  let quote := if contains_char "'" s && negb (contains_char DQUOTE s) then DQUOTE else "'"%char in
  String quote
    ((fix go (t : string) : string :=
        match t with
        | EmptyString => EmptyString
        | String c t' => repr_char quote c ++ go t'
        end) s ++ str1 quote).

(** [repr(v)] *)
Fixpoint py_repr (v : pyobj) : string :=
  match v with
  | PyNone => "None"
  | PyBool true => "True"
  | PyBool false => "False"
  | PyInt n => str_int n
  | PyStr s => repr_str s
  | PyList items => "[" ++ join ", " (map py_repr items) ++ "]"
  | PyDict members =>
      "{" ++ join ", " (map (fun kv => repr_str (fst kv) ++ ": " ++ py_repr (snd kv)) members) ++ "}"
  end.

(** [str(v)] *)
Definition py_str (v : pyobj) : string :=
  match v with
  | PyStr s => s
  | _ => py_repr v
  end.

(** ** The network *)

(** A [urllib.request.Request]. *)
Record request := Request {
  full_url : string;
  data : string;
  headers : list (string * option string);
  method : option string
}.

(** What one exchange gives the script: the object that
    [json.loads(response.read().decode("utf-8"))] returns, or the exception
    that [urlopen], [read], [decode] or [json.loads] raises. *)
Definition network := request -> result pyobj.

(** ** gemini_api_bridge.py *)

Module GeminiApiBridge.

Definition endpoint : string :=
  "https://generativelanguage.googleapis.com/v1beta/models/gemini-2.0-flash-exp:generateContent?key=".

Definition payload (message : string) : pyobj :=
  PyDict [("contents", PyList [PyDict [("parts", PyList [PyDict [("text", PyStr message)]])]])].

Definition build_request (api_key message : string) : request :=
  {| full_url := endpoint ++ api_key;
     data := Json.dumps (payload message);
     headers := [("Content-Type", Some "application/json")];
     method := None |}.

(** Lines 32 to 39: the text of the first part of the first candidate, or
    the whole response serialised again. *)
Definition response_text (response_data : pyobj) : result pyobj :=
  let fallback := Return (PyStr (Json.dumps response_data)) in
  let! has_candidates := py_contains "candidates" response_data in
  let! nonempty :=
    (if has_candidates : bool
     then let! candidates := getitem_key response_data "candidates" in
          let! n := py_len candidates in
          Return (0 <? n)%nat
     else Return false) in
  if nonempty : bool then
    let! candidates := getitem_key response_data "candidates" in
    let! candidate := getitem_0 candidates in
    let! has_content := py_contains "content" candidate in
    let! has_parts :=
      (if has_content : bool
       then let! content := getitem_key candidate "content" in
            py_contains "parts" content
       else Return false) in
    if has_parts : bool then
      let! content := getitem_key candidate "content" in
      let! parts := getitem_key content "parts" in
      let! n := py_len parts in
      if (0 <? n)%nat then
        let! part := getitem_0 parts in
        py_get part "text" (PyStr EmptyString)
      else fallback
    else fallback
  else fallback.

Definition call_gemini_api (urlopen : network) (api_key message : string) : result pyobj :=
  let req := build_request api_key message in
  match (let! response_data := urlopen req in response_text response_data) with
  | Return r => Return r
  | Raise (HTTPError code _ body) =>
      match body with
      | BodyText error_body =>
          Return (PyStr ("HTTP Error " ++ str_int code ++ ": " ++ error_body))
      | BodyUndecodable msg => Raise (UnicodeDecodeError msg)
      end
  | Raise e => Return (PyStr ("Error: " ++ str_exn e))
  end.

(** How the process ends: [sys.exit] or the end of the script, or an
    exception nobody caught (the interpreter then prints a traceback on
    standard error and the status is 1). *)
Inductive termination :=
| Exit (status : Z)
| Uncaught (e : exn).

Record process := Process {
  ended : termination;
  stdout : list string;
  stderr : list string
}.

Definition usage : list string :=
  [ "Usage: gemini_api_bridge.py <api_key> <message>";
    "Or set GEMINI_API_KEY and GEMINI_MESSAGE environment variables" ].

(** [not v] for what [os.environ.get] returns. *)
Definition unset_or_empty (v : option string) : bool :=
  match v with
  | None => true
  | Some EmptyString => true
  | Some (String _ _) => false
  end.

(** Lines 60 and 61. *)
Definition call_and_print (urlopen : network) (api_key message : string) : process :=
  match call_gemini_api urlopen api_key message with
  | Return response => {| ended := Exit 0; stdout := [py_str response]; stderr := [] |}
  | Raise e => {| ended := Uncaught e; stdout := []; stderr := [] |}
  end.

Definition main (environ : gmap string string) (argv : list string) (urlopen : network) : process :=
  let api_key := environ !! "GEMINI_API_KEY" in
  let message := environ !! "GEMINI_MESSAGE" in
  if unset_or_empty api_key || unset_or_empty message then
    if negb (length argv =? 3)%nat then
      {| ended := Exit 1; stdout := []; stderr := usage |}
    else
      call_and_print urlopen (nth 1 argv EmptyString) (nth 2 argv EmptyString)
  else
    call_and_print urlopen (default EmptyString api_key) (default EmptyString message).

End GeminiApiBridge.

(** ** Python's [base64.b64decode], on [pyobj] *)

Module Base64.

(** [table_a2b_base64]: the value of a character of the alphabet. *)
Definition b64_value (c : ascii) : option N :=
  let n := ord c in
  if ((65 <=? n) && (n <=? 90))%N then Some (n - 65)%N
  else if ((97 <=? n) && (n <=? 122))%N then Some (n - 71)%N
  else if ((48 <=? n) && (n <=? 57))%N then Some (n + 4)%N
  else if (n =? 43)%N then Some 62%N
  else if (n =? 47)%N then Some 63%N
  else None.

Definition byte_of_N (n : N) : byte :=
  match Byte.of_N (n mod 256) with
  | Some b => b
  | None => x00
  end.

(** The loop of [binascii.a2b_base64] when it does not validate:
    characters outside the alphabet are skipped, enough padding after at
    least two characters of a group ends the decoding, and a group left
    open at the end of the text is an error. *)
Fixpoint a2b_loop (s : string) (quad_pos : N) (leftchar : N) (pads : N) (bin_data : list byte)
  : result (list byte) :=
  match s with
  | EmptyString =>
      if (quad_pos =? 0)%N then Return bin_data
      else if (quad_pos =? 1)%N then
        Raise (binascii_Error
                 ("Invalid base64-encoded string: number of data characters ("
                    ++ str_nat (length bin_data / 3 * 4 + 1)
                    ++ ") cannot be 1 more than a multiple of 4"))
      else Raise (binascii_Error "Incorrect padding")
  | String this_ch s' =>
      if (ord this_ch =? 61)%N then
        if (2 <=? quad_pos)%N then
          if (4 <=? quad_pos + (pads + 1))%N then Return bin_data
          else a2b_loop s' quad_pos leftchar (pads + 1)%N bin_data
        else a2b_loop s' quad_pos leftchar pads bin_data
      else
        match b64_value this_ch with
        | None => a2b_loop s' quad_pos leftchar pads bin_data
        | Some v =>
            if (quad_pos =? 0)%N then a2b_loop s' 1%N v 0%N bin_data
            else if (quad_pos =? 1)%N then
              a2b_loop s' 2%N (N.land v 15) 0%N
                (bin_data ++ [byte_of_N (N.lor (N.shiftl leftchar 2) (N.shiftr v 4))])
            else if (quad_pos =? 2)%N then
              a2b_loop s' 3%N (N.land v 3) 0%N
                (bin_data ++ [byte_of_N (N.lor (N.shiftl leftchar 4) (N.shiftr v 2))])
            else
              a2b_loop s' 0%N 0%N 0%N
                (bin_data ++ [byte_of_N (N.lor (N.shiftl leftchar 6) v)])
        end
  end.

Definition a2b_base64 (s : string) : result (list byte) :=
  a2b_loop s 0 0 0 [].

Fixpoint is_ascii (s : string) : bool :=
  match s with
  | EmptyString => true
  | String c s' => (ord c <? 128)%N && is_ascii s'
  end.

(** [base64.b64decode(v)] *)
Definition b64decode (v : pyobj) : result (list byte) :=
  match v with
  | PyStr s =>
      if is_ascii s then a2b_base64 s
      else Raise (ValueError "string argument should contain only ASCII characters")
  | _ =>
      Raise (TypeError ("argument should be a bytes-like object or ASCII string, not '"
                          ++ type_name v ++ "'"))
  end.

(** Base64 as RFC 4648 writes it: groups of four characters of the
    alphabet, the last group ending in at most two [=]. *)
Definition in_alphabet (c : ascii) : bool :=
  match b64_value c with Some _ => true | None => false end.

Definition is_pad (c : ascii) : bool := (ord c =? 61)%N.

Fixpoint valid_base64 (s : string) : bool :=
  match s with
  | EmptyString => true
  | String a (String b (String c (String d rest))) =>
      in_alphabet a && in_alphabet b &&
      match rest with
      | EmptyString =>
          (in_alphabet c && (in_alphabet d || is_pad d)) || (is_pad c && is_pad d)
      | String _ _ => in_alphabet c && in_alphabet d && valid_base64 rest
      end
  | _ => false
  end.

End Base64.

(** ** The file system *)

Inductive node :=
| Dir
| File (content : list byte).

(** [os.path.join(a, b)] for a relative [b]. *)
Definition os_path_join (a b : string) : string := a ++ "/" ++ b.

(** [os.makedirs(path, exist_ok=True)] for a [path] whose parent exists. *)
Definition makedirs_exist_ok (path : string) (fs : gmap string node) : result (gmap string node) :=
  match fs !! path with
  | None => Return (<[path := Dir]> fs)
  | Some Dir => Return fs
  | Some (File _) => Raise (OSError ("[Errno 17] File exists: '" ++ path ++ "'"))
  end.

(** [with open(os.path.join(folder, name), "wb") as f: f.write(content)] *)
Definition write_binary (folder name : string) (content : list byte) (fs : gmap string node)
  : result (gmap string node) :=
  let path := os_path_join folder name in
  match fs !! folder with
  | None => Raise (OSError ("[Errno 2] No such file or directory: '" ++ path ++ "'"))
  | Some (File _) => Raise (OSError ("[Errno 20] Not a directory: '" ++ path ++ "'"))
  | Some Dir =>
      match fs !! path with
      | Some Dir => Raise (OSError ("[Errno 21] Is a directory: '" ++ path ++ "'"))
      | _ => Return (<[path := File content]> fs)
      end
  end.

(** ** pixelart.py *)

Module Pixelart.

Definition url : string := "https://api.retrodiffusion.ai/v1/inferences".

Definition payload : pyobj :=
  PyDict [("width", PyInt 256); ("height", PyInt 256);
          ("prompt", PyStr "angry pickle enemy, 8bit");
          ("num_images", PyInt 1); ("prompt_style", PyStr "rd_fast__simple")].

Definition req (API_KEY : option string) : request :=
  {| full_url := url;
     data := Json.dumps payload;
     headers := [("X-RD-Token", API_KEY); ("Content-Type", Some "application/json")];
     method := Some "POST" |}.

Definition candidate_keys : list string :=
  ["image_b64"; "image"; "base64"; "data"; "base64_images"].

(** The [for key in ...] loop of lines 53 to 56: the value of the first of
    [keys] that [img_obj] holds; [base64_images] stays [None] without one. *)
Fixpoint search_keys (keys : list string) (img_obj : list (string * pyobj)) : pyobj :=
  match keys with
  | [] => PyNone
  | key :: keys' =>
      match dict_get key img_obj with
      | Some x => x
      | None => search_keys keys' img_obj
      end
  end.

(** Lines 45 to 66: the value of [base64_images] when line 69 is reached.
    Case 1 is a [dict] holding [images], whose first element is taken
    whatever [images] is; case 2 a list that is not empty; case 3 a [str].
    Without a case, and in case 1 without a key or a string,
    [base64_images] is still [None]. *)
Definition extract (response_data : pyobj) : result pyobj :=
  match response_data with
  | PyDict members =>
      match dict_get "images" members with
      | Some images =>
          let! img_obj := getitem_0 images in
          match img_obj with
          | PyDict d => Return (search_keys candidate_keys d)
          | PyStr _ => Return (PyList [img_obj])
          | _ => Return PyNone
          end
      | None => Return PyNone
      end
  | PyList (_ :: _) => Return response_data
  | PyStr _ => Return response_data
  | _ => Return PyNone
  end.

Definition assets_folder : string := "./assets".
Definition output_name : string := "output1.png".
Definition output_file : string := os_path_join assets_folder output_name.

(** What the script can see and change: the files, and the lines printed. *)
Record world := World {
  fs : gmap string node;
  stdout : list string
}.

(** A step of the script: it may raise, and it leaves a world behind
    either way. *)
Definition script (A : Type) : Type := world -> result A * world.

Definition ret {A} (a : A) : script A := fun w => (Return a, w).
Definition raise {A} (e : exn) : script A := fun w => (Raise e, w).
Definition lift {A} (r : result A) : script A := fun w => (r, w).
Definition seq {A B} (m : script A) (k : A -> script B) : script B :=
  fun w =>
    match m w with
    | (Return a, w') => k a w'
    | (Raise e, w') => (Raise e, w')
    end.
Definition print (line : string) : script unit :=
  fun w => (Return tt, {| fs := fs w; stdout := stdout w ++ [line] |}).
Definition on_fs (f : gmap string node -> result (gmap string node)) : script unit :=
  fun w =>
    match f (fs w) with
    | Return fs' => (Return tt, {| fs := fs'; stdout := stdout w |})
    | Raise e => (Raise e, w)
    end.

Notation "'do!' x ':=' m 'in' k" := (seq m (fun x => k))
  (at level 10, x name, m at level 100, k at level 200).
Notation "m ';;' k" := (seq m (fun _ => k))
  (at level 100, k at level 200, right associativity).

Definition no_image : string := "No base64 image found in API response!".
Definition decode_failed : string := "Base64 decode failed: ".

(** Lines 35 to 88, the body of the [try]. *)
Definition try_block (API_KEY : option string) (urlopen : network) : script unit :=
  do! response_data := lift (urlopen (req API_KEY)) in
  print ("Response Data: " ++ Json.dumps_indent 0 response_data) ;;
  do! base64_images := lift (extract response_data) in
  (if negb (truthy base64_images) then raise (ValueError no_image) else ret tt) ;;
  do! image_data :=
    (match Base64.b64decode base64_images with
     | Return image_data => print "Base64 decode: OK" ;; ret image_data
     | Raise e => raise (ValueError (decode_failed ++ str_exn e))
     end) in
  on_fs (makedirs_exist_ok assets_folder) ;;
  on_fs (write_binary assets_folder output_name image_data) ;;
  print ("Image saved to " ++ output_file).

(** The whole script: the [try] and its three handlers. *)
Definition run (API_KEY : option string) (urlopen : network) (w : world) : world :=
  match try_block API_KEY urlopen w with
  | (Return _, w') => w'
  | (Raise (HTTPError code reason body), w') =>
      let w1 := snd (print ("HTTPError: " ++ str_int code ++ " - " ++ reason) w') in
      match body with
      | BodyText text => snd (print text w1)
      | BodyUndecodable _ => w1
      end
  | (Raise (URLError reason), w') => snd (print ("URLError: " ++ reason) w')
  | (Raise e, w') => snd (print ("Unexpected error: " ++ str_exn e) w')
  end.

End Pixelart.

(** ** The vocabulary of the claims *)

(** A key of a JSON object and the first element of a JSON array: the steps
    of the key path [candidates[0].content.parts[0]]. *)
Definition json_key (k : string) (v : pyobj) : option pyobj :=
  match v with
  | PyDict members => dict_get k members
  | _ => None
  end.

Definition json_first (v : pyobj) : option pyobj :=
  match v with
  | PyList (x :: _) => Some x
  | _ => None
  end.

(** The expected candidate structure of a response: the value at
    [candidates[0].content.parts[0]], when the path exists. *)
Definition first_part (response_data : pyobj) : option pyobj :=
  match json_key "candidates" response_data with
  | Some candidates =>
      match json_first candidates with
      | Some candidate =>
          match json_key "content" candidate with
          | Some content =>
              match json_key "parts" content with
              | Some parts => json_first parts
              | None => None
              end
          | None => None
          end
      | None => None
      end
  | None => None
  end.

(** The ways a response object can lack that structure while every value
    met on the path is an object or an array. *)
Inductive lacks_candidate_text : pyobj -> Prop :=
| no_candidates response :
    dict_get "candidates" response = None ->
    lacks_candidate_text (PyDict response)
| empty_candidates response :
    dict_get "candidates" response = Some (PyList []) ->
    lacks_candidate_text (PyDict response)
| no_content response candidate others :
    dict_get "candidates" response = Some (PyList (PyDict candidate :: others)) ->
    dict_get "content" candidate = None ->
    lacks_candidate_text (PyDict response)
| no_parts response candidate others content :
    dict_get "candidates" response = Some (PyList (PyDict candidate :: others)) ->
    dict_get "content" candidate = Some (PyDict content) ->
    dict_get "parts" content = None ->
    lacks_candidate_text (PyDict response)
| empty_parts response candidate others content :
    dict_get "candidates" response = Some (PyList (PyDict candidate :: others)) ->
    dict_get "content" candidate = Some (PyDict content) ->
    dict_get "parts" content = Some (PyList []) ->
    lacks_candidate_text (PyDict response).

(** ** Terms of the proofs *)

Section roundtrip_terms.
Import Json.

(** The first character of a serialised value is neither white space nor
    a closing bracket. *)
Definition head_ok (s : string) : Prop :=
  match s with
  | String c _ => is_whitespace c = false /\ Ascii.eqb c "]" = false
  | EmptyString => False
  end.

(** What the round trip asks of one value. *)
Definition reads_back (v : pyobj) : Prop :=
  well_formed v ->
  forall fuel rest,
    fuel_for v <= fuel -> value_end rest = true ->
    parse_value fuel (dumps v ++ rest) = Some (v, rest).

Definition items_fuel (items : list pyobj) : nat :=
  fold_right (fun x acc => S (fuel_for x + acc)) 0 items.

Definition items_well_formed (items : list pyobj) : Prop :=
  fold_right (fun x acc => well_formed x /\ acc) True items.

Definition member_text (kv : string * pyobj) : string :=
  encode_basestring_ascii (fst kv) ++ ": " ++ dumps (snd kv).

Definition members_fuel (members : list (string * pyobj)) : nat :=
  fold_right (fun kv acc => S (fuel_for (snd kv) + acc)) 0 members.

Definition members_well_formed (members : list (string * pyobj)) : Prop :=
  fold_right (fun kv acc => well_formed (snd kv) /\ acc) True members.

End roundtrip_terms.

(** [plain r]: [r] is no [HTTPError]; only the network raises one. *)
Definition plain {A} (r : result A) : Prop :=
  match r with
  | Raise (HTTPError _ _ _) => False
  | _ => True
  end.

(** What line 40 prints. *)
Definition response_line (response_data : pyobj) : string :=
  "Response Data: " ++ Json.dumps_indent 0 response_data.

(** ** Sample inputs *)

Definition scenario_response : pyobj :=
  PyDict [("candidates",
           PyList [PyDict [("content",
                            PyDict [("parts", PyList [PyDict [("text", PyStr "hi there")]])])]])].

(** The body of the mocked endpoint of the specification's scenario. *)
Definition quoted (s : string) : string := String DQUOTE (s ++ str1 DQUOTE).

Definition scenario_body : string :=
  "{" ++ quoted "candidates" ++ ":[{" ++ quoted "content" ++ ":{" ++ quoted "parts"
      ++ ":[{" ++ quoted "text" ++ ":" ++ quoted "hi there" ++ "}]}}]}".

Definition error_response : pyobj :=
  PyDict [("error", PyDict [("code", PyInt 400); ("status", PyStr "INVALID_ARGUMENT")])].

(** A response whose first candidate has [null] for content: the path
    [candidates[0].content.parts[0]] is absent, the function returns an
    ["Error: ..."] string, and that string is not JSON. *)
Definition null_content_response : pyobj :=
  PyDict [("candidates", PyList [PyDict [("content", PyNone)]])].

Definition image_response (payload : string) : pyobj :=
  PyDict [("images", PyList [PyDict [("image_b64", PyStr payload)]])].

Definition empty_world : Pixelart.world := {| Pixelart.fs := ∅; Pixelart.stdout := [] |}.

(** A response whose text is a number. *)
Definition number_text_response : pyobj :=
  PyDict [("candidates",
           PyList [PyDict [("content",
                            PyDict [("parts", PyList [PyDict [("text", PyInt 5)]])])]])].

(** What lines 81 to 86 leave of the files: the directory made and the
    image written, as far as each of the two succeeds. *)
Definition saved (image_data : list byte) (fs : gmap string node) : gmap string node :=
  match makedirs_exist_ok Pixelart.assets_folder fs with
  | Raise _ => fs
  | Return fs1 =>
      match write_binary Pixelart.assets_folder Pixelart.output_name image_data fs1 with
      | Raise _ => fs1
      | Return fs2 => fs2
      end
  end.

(** The files after a run whose exchange returned [response_data]. *)
Definition files_after (response_data : pyobj) (fs : gmap string node) : gmap string node :=
  match Pixelart.extract response_data with
  | Raise _ => fs
  | Return base64_images =>
      if truthy base64_images then
        match Base64.b64decode base64_images with
        | Raise _ => fs
        | Return image_data => saved image_data fs
        end
      else fs
  end.

(** * Properties *)

(** ** Strings *)

Lemma append_assoc (a b c : string) : (a ++ b) ++ c = a ++ (b ++ c).
Proof. induction a as [|x a IH]; simpl; [reflexivity | now rewrite IH]. Qed.

Lemma append_nil_r (s : string) : s ++ EmptyString = s.
Proof. induction s as [|x s IH]; simpl; [reflexivity | now rewrite IH]. Qed.

Lemma length_append (a b : string) :
  String.length (a ++ b) = String.length a + String.length b.
Proof. induction a as [|x a IH]; simpl; [reflexivity | now rewrite IH]. Qed.

(** ** Reading back what [json.dumps] wrote *)

Section json_roundtrip.
Import Json.

Lemma scanstring_escape_char (c : ascii) (t : string) :
  scanstring (escape_char c ++ t) = prepend (Some c) (scanstring t).
Proof. destruct c as [[] [] [] [] [] [] [] []]; reflexivity. Qed.

Lemma scanstring_escape (s rest : string) :
  scanstring (escape s ++ String DQUOTE rest) = Some (s, rest).
Proof.
  induction s as [|c s IH]; simpl.
  - reflexivity.
  - rewrite append_assoc, scanstring_escape_char, IH. reflexivity.
Qed.

Lemma encode_basestring_ascii_append (s rest : string) :
  encode_basestring_ascii s ++ rest = String DQUOTE (escape s ++ String DQUOTE rest).
Proof. unfold encode_basestring_ascii, str1. simpl. now rewrite append_assoc. Qed.

Lemma nzhead_not_D0 (d d' : uint) : nzhead d <> D0 d'.
Proof. induction d; simpl; try discriminate. exact IHd. Qed.

Lemma pos_to_uint_not_D0 (p : positive) (u : uint) : Pos.to_uint p <> D0 u.
Proof.
  intros E.
  pose proof (DecimalPos.Unsigned.to_of (Pos.to_uint p)) as H.
  rewrite DecimalPos.Unsigned.of_to in H. simpl in H.
  rewrite E in H. unfold unorm in H. simpl in H.
  destruct (nzhead u) eqn:Hn; try discriminate.
  - injection H as ->. exact (DecimalPos.Unsigned.to_uint_nonzero p E).
  - exact (nzhead_not_D0 _ _ Hn).
Qed.

Lemma read_digits_string_of_uint (u : uint) (rest : string) :
  value_end rest = true ->
  read_digits (NilEmpty.string_of_uint u ++ rest) = (u, rest).
Proof.
  intros Hend.
  induction u; simpl; try (rewrite IHu; reflexivity).
  destruct rest as [|c rest']; [reflexivity|].
  simpl. unfold value_end in Hend.
  destruct (digit_of_char c); [discriminate | reflexivity].
Qed.

Lemma value_end_no_float (rest : string) :
  value_end rest = true -> starts_float_part rest = false.
Proof.
  destruct rest as [|c rest']; [reflexivity|].
  unfold value_end. destruct (digit_of_char c); [discriminate|].
  now destruct (starts_float_part (String c rest')).
Qed.

Lemma parse_nat_pos (p : positive) (rest : string) :
  value_end rest = true ->
  parse_nat (NilZero.string_of_uint (Pos.to_uint p) ++ rest) = Some (Z.pos p, rest).
Proof.
  intros Hend.
  assert (Hz : Z.of_uint (Pos.to_uint p) = Z.pos p).
  { unfold Z.of_uint. now rewrite DecimalPos.Unsigned.of_to. }
  pose proof (value_end_no_float _ Hend) as Hf.
  destruct (Pos.to_uint p) as [|u|u|u|u|u|u|u|u|u|u] eqn:E;
    try (exfalso; exact (DecimalPos.Unsigned.to_uint_nonnil p E));
    try (exfalso; exact (pos_to_uint_not_D0 p u E));
    unfold parse_nat; simpl;
    rewrite (read_digits_string_of_uint u rest Hend), Hf, <- Hz; reflexivity.
Qed.

Lemma parse_number_str_int (n : Z) (rest : string) :
  value_end rest = true ->
  parse_number (str_int n ++ rest) = Some (n, rest).
Proof.
  intros Hend. pose proof (value_end_no_float _ Hend) as Hf.
  destruct n as [|p|p]; unfold str_int; simpl.
  - unfold parse_number, parse_nat. simpl. now rewrite Hf.
  - pose proof (parse_nat_pos p rest Hend) as H.
    unfold parse_number.
    destruct (Pos.to_uint p) as [|u|u|u|u|u|u|u|u|u|u] eqn:E;
      try (exfalso; exact (DecimalPos.Unsigned.to_uint_nonnil p E));
      simpl in *; exact H.
  - unfold parse_number. simpl.
    rewrite (parse_nat_pos p rest Hend). reflexivity.
Qed.

Lemma head_ok_skip_ws (s : string) : head_ok s -> skip_ws s = s.
Proof. destruct s as [|c s']; simpl; [tauto | now intros [-> _]]. Qed.

Lemma head_ok_not_closing (s : string) : head_ok s -> starts_with "]" s = None.
Proof. destruct s as [|c s']; simpl; [tauto | now intros [_ ->]]. Qed.

Lemma str_int_head (n : Z) (t : string) : head_ok (str_int n ++ t).
Proof.
  destruct n as [|p|p]; unfold str_int; simpl; try (split; reflexivity).
  destruct (Pos.to_uint p); simpl; split; reflexivity.
Qed.

Lemma dumps_head (v : pyobj) (t : string) : head_ok (dumps v ++ t).
Proof.
  destruct v as [|[]|n|s|items|members]; try (simpl; split; reflexivity).
  apply str_int_head.
Qed.

Lemma str_int_length (n : Z) : 1 <= String.length (str_int n).
Proof.
  destruct n as [|p|p]; unfold str_int; simpl; try lia.
  destruct (Pos.to_uint p); simpl; lia.
Qed.

Lemma join_cons_append (sep x : string) (l : list string) (t : string) :
  join sep (x :: l) ++ t
  = x ++ match l with [] => t | _ :: _ => sep ++ join sep l ++ t end.
Proof.
  destruct l as [|y l]; simpl; [reflexivity|].
  now rewrite !append_assoc.
Qed.

Lemma parse_value_S (fuel : nat) (s : string) :
  parse_value (S fuel) s =
  match parse_number s with
  | Some (n, rest) => Some (PyInt n, rest)
  | None =>
  match strip_prefix "null" s, strip_prefix "true" s, strip_prefix "false" s with
  | Some rest, _, _ => Some (PyNone, rest)
  | _, Some rest, _ => Some (PyBool true, rest)
  | _, _, Some rest => Some (PyBool false, rest)
  | _, _, _ =>
  match starts_with DQUOTE s, starts_with "[" s, starts_with "{" s with
  | Some r, _, _ =>
      match scanstring r with
      | Some (str, rest) => Some (PyStr str, rest)
      | None => None
      end
  | _, Some r, _ =>
      match starts_with "]" (skip_ws r) with
      | Some rest => Some (PyList [], rest)
      | None =>
          match parse_items fuel (skip_ws r) with
          | Some (items, rest) => Some (PyList items, rest)
          | None => None
          end
      end
  | _, _, Some r =>
      match starts_with "}" (skip_ws r) with
      | Some rest => Some (PyDict [], rest)
      | None =>
          match parse_members fuel (skip_ws r) with
          | Some (pairs, rest) => Some (PyDict (dict_of_pairs pairs), rest)
          | None => None
          end
      end
  | _, _, _ => None
  end
  end
  end.
Proof. reflexivity. Qed.

Lemma parse_items_S (fuel : nat) (s : string) :
  parse_items (S fuel) s =
  match parse_value fuel s with
  | Some (v, r) =>
      match starts_with "]" (skip_ws r), starts_with "," (skip_ws r) with
      | Some rest, _ => Some ([v], rest)
      | _, Some r1 =>
          match parse_items fuel (skip_ws r1) with
          | Some (items, rest) => Some (v :: items, rest)
          | None => None
          end
      | _, _ => None
      end
  | None => None
  end.
Proof. reflexivity. Qed.

Lemma parse_members_S (fuel : nat) (s : string) :
  parse_members (S fuel) s =
  match starts_with DQUOTE s with
  | Some r =>
      match scanstring r with
      | Some (k, r1) =>
          match starts_with ":" (skip_ws r1) with
          | Some r2 =>
              match parse_value fuel (skip_ws r2) with
              | Some (v, r3) =>
                  match starts_with "}" (skip_ws r3), starts_with "," (skip_ws r3) with
                  | Some rest, _ => Some ([(k, v)], rest)
                  | _, Some r4 =>
                      match parse_members fuel (skip_ws r4) with
                      | Some (pairs, rest) => Some ((k, v) :: pairs, rest)
                      | None => None
                      end
                  | _, _ => None
                  end
              | None => None
              end
          | None => None
          end
      | None => None
      end
  | None => None
  end.
Proof. reflexivity. Qed.

#[local] Arguments join : simpl never.

Lemma parse_items_dumps (items : list pyobj) :
  Forall reads_back items -> items_well_formed items -> items <> [] ->
  forall fuel rest,
    items_fuel items <= fuel ->
    parse_items fuel (join ", " (map dumps items) ++ String "]" rest) = Some (items, rest).
Proof.
  induction 1 as [|x xs Hx Hxs IH]; [congruence|].
  intros [Hwx Hwxs] _ fuel rest Hfuel. simpl in Hfuel.
  destruct fuel as [|fuel]; [lia|].
  rewrite parse_items_S. simpl map. rewrite join_cons_append.
  destruct xs as [|y l]; cbn [map].
  - rewrite (Hx Hwx fuel (String "]" rest)); [reflexivity | lia | reflexivity].
  - assert (Hh : head_ok (join ", " (dumps y :: map dumps l) ++ String "]" rest)).
    { rewrite join_cons_append. apply dumps_head. }
    rewrite (Hx Hwx fuel _); [| lia | reflexivity].
    simpl. rewrite (head_ok_skip_ws _ Hh).
    change (dumps y :: map dumps l) with (map dumps (y :: l)).
    rewrite (IH Hwxs); [reflexivity | congruence | simpl in *; lia].
Qed.

Lemma member_text_head (kv : string * pyobj) (t : string) : head_ok (member_text kv ++ t).
Proof. unfold member_text. simpl. split; reflexivity. Qed.

Lemma parse_members_dumps (members : list (string * pyobj)) :
  Forall (fun kv => reads_back (snd kv)) members ->
  members_well_formed members -> members <> [] ->
  forall fuel rest,
    members_fuel members <= fuel ->
    parse_members fuel (join ", " (map member_text members) ++ String "}" rest)
    = Some (members, rest).
Proof.
  induction 1 as [|[k v] xs Hx Hxs IH]; [congruence|].
  intros [Hwx Hwxs] _ fuel rest Hfuel. simpl in Hfuel, Hx, Hwx.
  destruct fuel as [|fuel]; [lia|].
  rewrite parse_members_S. cbn [map]. rewrite join_cons_append.
  unfold member_text at 1. cbn [fst snd].
  rewrite append_assoc, encode_basestring_ascii_append.
  cbn [starts_with Ascii.eqb Bool.eqb DQUOTE]. rewrite scanstring_escape.
  rewrite append_assoc. simpl.
  rewrite (head_ok_skip_ws _ (dumps_head v _)).
  destruct xs as [|y l]; cbn [map].
  - rewrite (Hx Hwx fuel (String "}" rest)); [reflexivity | lia | reflexivity].
  - assert (Hh : head_ok (join ", " (member_text y :: map member_text l) ++ String "}" rest)).
    { rewrite join_cons_append. apply member_text_head. }
    rewrite (Hx Hwx fuel _); [| lia | reflexivity].
    simpl. rewrite (head_ok_skip_ws _ Hh).
    change (member_text y :: map member_text l) with (map member_text (y :: l)).
    rewrite (IH Hwxs); [reflexivity | congruence | simpl in *; lia].
Qed.

Lemma dict_set_fresh (k : string) (v : pyobj) (d : list (string * pyobj)) :
  ~ In k (map fst d) -> dict_set k v d = (d ++ [(k, v)])%list.
Proof.
  induction d as [|[k' v'] d IH]; simpl; [reflexivity|].
  intros Hnot. destruct (String.eqb_spec k' k) as [->|_]; [tauto|].
  rewrite IH; [reflexivity | tauto].
Qed.

Lemma dict_of_pairs_from (pairs acc : list (string * pyobj)) :
  NoDup (map fst (acc ++ pairs)%list) ->
  fold_left (fun d kv => dict_set (fst kv) (snd kv) d) pairs acc = (acc ++ pairs)%list.
Proof.
  revert acc. induction pairs as [|[k v] pairs IH]; intros acc Hnd; simpl.
  - now rewrite app_nil_r.
  - rewrite dict_set_fresh.
    + rewrite IH; rewrite <- app_assoc; [reflexivity | exact Hnd].
    + apply NoDup_ListNoDup in Hnd. rewrite map_app in Hnd. simpl in Hnd.
      apply List.NoDup_remove_2 in Hnd.
      intros Hin. apply Hnd. apply in_or_app. now left.
Qed.

Lemma dict_of_pairs_nodup (pairs : list (string * pyobj)) :
  NoDup (map fst pairs) -> dict_of_pairs pairs = pairs.
Proof. intros Hnd. unfold dict_of_pairs. now rewrite dict_of_pairs_from. Qed.

Lemma dumps_list_append (items : list pyobj) (rest : string) :
  dumps (PyList items) ++ rest
  = String "[" (join ", " (map dumps items) ++ String "]" rest).
Proof. simpl. now rewrite append_assoc. Qed.

Lemma dumps_dict_append (members : list (string * pyobj)) (rest : string) :
  dumps (PyDict members) ++ rest
  = String "{" (join ", " (map member_text members) ++ String "}" rest).
Proof. simpl. now rewrite append_assoc. Qed.

(** [parse_value] reads a serialised object back and stops at its end. *)
Lemma dumps_reads_back (v : pyobj) : reads_back v.
Proof.
  induction v as [| b | n | s | items IH | members IH] using pyobj_nested_ind;
    intros Hwf fuel rest Hfuel Hend;
    (destruct fuel as [|fuel]; [simpl in Hfuel; lia|]); rewrite parse_value_S.
  - reflexivity.
  - destruct b; reflexivity.
  - simpl dumps. now rewrite parse_number_str_int.
  - simpl dumps. rewrite encode_basestring_ascii_append.
    simpl. now rewrite scanstring_escape.
  - rewrite dumps_list_append. destruct items as [|x xs]; [reflexivity|].
    assert (Hh : head_ok (join ", " (map dumps (x :: xs)) ++ String "]" rest)).
    { cbn [map]. rewrite join_cons_append. apply dumps_head. }
    set (J := join ", " (map dumps (x :: xs)) ++ String "]" rest) in *.
    simpl. rewrite (head_ok_skip_ws _ Hh), (head_ok_not_closing _ Hh).
    subst J.
    rewrite (parse_items_dumps (x :: xs) IH Hwf); [reflexivity | congruence |].
    simpl in Hfuel. unfold items_fuel. simpl. lia.
  - rewrite dumps_dict_append. destruct members as [|x xs]; [reflexivity|].
    destruct Hwf as [Hnd Hwf].
    assert (Hh : head_ok (join ", " (map member_text (x :: xs)) ++ String "}" rest)).
    { cbn [map]. rewrite join_cons_append. apply member_text_head. }
    assert (Hc : starts_with "}" (join ", " (map member_text (x :: xs)) ++ String "}" rest) = None).
    { cbn [map]. rewrite join_cons_append. reflexivity. }
    set (J := join ", " (map member_text (x :: xs)) ++ String "}" rest) in *.
    simpl. rewrite (head_ok_skip_ws _ Hh), Hc.
    subst J.
    rewrite (parse_members_dumps (x :: xs) IH Hwf); [| congruence |].
    + rewrite (dict_of_pairs_nodup _ Hnd). reflexivity.
    + simpl in Hfuel. unfold members_fuel. simpl. lia.
Qed.

Lemma join_length_bound {A} (text : A -> string) (cost : A -> nat) (l : list A) :
  Forall (fun x => cost x <= 2 * String.length (text x)) l ->
  fold_right (fun x acc => S (cost x + acc)) 0 l
  <= 2 * String.length (join ", " (map text l)) + 2.
Proof.
  induction 1 as [|x xs Hx Hxs IH]; [simpl; lia|].
  destruct xs as [|y l'].
  - unfold join. simpl. lia.
  - change (map text (x :: y :: l')) with (text x :: map text (y :: l')).
    change (join ", " (text x :: map text (y :: l')))
      with (text x ++ ", " ++ join ", " (map text (y :: l'))).
    rewrite !length_append.
    change (fold_right (fun x acc => S (cost x + acc)) 0 (x :: y :: l'))
      with (S (cost x + fold_right (fun x acc => S (cost x + acc)) 0 (y :: l'))).
    change (String.length ", ") with 2. lia.
Qed.

Lemma fuel_for_bound (v : pyobj) : fuel_for v <= 2 * String.length (dumps v).
Proof.
  induction v as [| b | n | s | items IH | members IH] using pyobj_nested_ind.
  - simpl. lia.
  - destruct b; simpl; lia.
  - simpl. pose proof (str_int_length n). lia.
  - simpl. lia.
  - pose proof (join_length_bound dumps fuel_for items IH) as H.
    change (dumps (PyList items)) with ("[" ++ join ", " (map dumps items) ++ "]").
    rewrite !length_append.
    change (String.length "[") with 1. change (String.length "]") with 1.
    change (fuel_for (PyList items))
      with (S (fold_right (fun x acc => S (fuel_for x + acc)) 0 items)).
    lia.
  - assert (IH' : Forall (fun kv => fuel_for (snd kv) <= 2 * String.length (member_text kv))
                    members).
    { eapply Forall_impl; [exact IH|]. intros [k x] Hk. simpl in *.
      unfold member_text. rewrite !length_append. simpl. lia. }
    pose proof (join_length_bound member_text (fun kv => fuel_for (snd kv)) members IH') as H.
    change (dumps (PyDict members)) with ("{" ++ join ", " (map member_text members) ++ "}").
    rewrite !length_append.
    change (String.length "{") with 1. change (String.length "}") with 1.
    change (fuel_for (PyDict members))
      with (S (fold_right (fun kv acc => S (fuel_for (snd kv) + acc)) 0 members)).
    lia.
Qed.

(** [json.loads(json.dumps(v)) == v] for every object [json.loads] can
    build. *)
Lemma loads_dumps (v : pyobj) : well_formed v -> loads (dumps v) = Some v.
Proof.
  intros Hwf. unfold loads.
  pose proof (dumps_head v EmptyString) as Hh. rewrite append_nil_r in Hh.
  rewrite (head_ok_skip_ws _ Hh).
  pose proof (dumps_reads_back v Hwf (2 * String.length (dumps v) + 2) EmptyString) as H.
  rewrite append_nil_r in H. rewrite H; [reflexivity | | reflexivity].
  pose proof (fuel_for_bound v). lia.
Qed.

End json_roundtrip.

(** ** Which exceptions the operations on objects raise *)

Lemma plain_bind {A B} (m : result A) (k : A -> result B) :
  plain m -> (forall a, plain (k a)) -> plain (bind m k).
Proof. destruct m as [a|e]; simpl; auto. Qed.

Lemma plain_py_contains k v : plain (py_contains k v).
Proof. destruct v; exact I. Qed.

Lemma plain_py_len v : plain (py_len v).
Proof. destruct v; exact I. Qed.

Lemma plain_getitem_key v k : plain (getitem_key v k).
Proof. destruct v; simpl; try exact I. destruct (dict_get k members); exact I. Qed.

Lemma plain_getitem_0 v : plain (getitem_0 v).
Proof. destruct v as [| | |s|items|]; simpl; try exact I; [destruct s | destruct items]; exact I. Qed.

Lemma plain_py_get v k d : plain (py_get v k d).
Proof. destruct v; exact I. Qed.

Ltac plain_steps :=
  repeat first
    [ apply plain_py_contains | apply plain_py_len | apply plain_getitem_key
    | apply plain_getitem_0 | apply plain_py_get | exact I
    | apply plain_bind; [|intro]
    | match goal with |- plain (if ?b then _ else _) => destruct b end ].

(** ** gemini_api_bridge.py: the text of a well-formed response *)

Section gemini_bridge.
Import GeminiApiBridge.

Variable urlopen : network.
Variables api_key message : string.

Lemma plain_response_text (response_data : pyobj) : plain (response_text response_data).
Proof. unfold response_text. plain_steps. Qed.

(** When the exchange succeeds, the function returns what lines 32 to 39
    return, and the message of what they raise. *)
Lemma call_gemini_api_response (response_data : pyobj) :
  urlopen (build_request api_key message) = Return response_data ->
  call_gemini_api urlopen api_key message =
  match response_text response_data with
  | Return r => Return r
  | Raise e => Return (PyStr ("Error: " ++ str_exn e))
  end.
Proof.
  intros Hnet. unfold call_gemini_api. rewrite Hnet. simpl.
  pose proof (plain_response_text response_data) as Hp.
  destruct (response_text response_data) as [r|e]; [reflexivity|].
  destruct e; try reflexivity. destruct Hp.
Qed.

(** C2: when the response holds [candidates[0].content.parts[0]] and that
    part is an object, [call_gemini_api] returns the value of the part's
    [text] field, so exactly the string [t] when that value is the string
    [t], and the empty string when the part has no [text] field. *)
Theorem call_gemini_api_returns_text
    (response candidate content part : list (string * pyobj))
    (other_candidates other_parts : list pyobj) :
  urlopen (build_request api_key message) = Return (PyDict response) ->
  dict_get "candidates" response = Some (PyList (PyDict candidate :: other_candidates)) ->
  dict_get "content" candidate = Some (PyDict content) ->
  dict_get "parts" content = Some (PyList (PyDict part :: other_parts)) ->
  (forall t, dict_get "text" part = Some t ->
             call_gemini_api urlopen api_key message = Return t)
  /\ (dict_get "text" part = None ->
      call_gemini_api urlopen api_key message = Return (PyStr EmptyString)).
Proof.
  intros Hnet Hc Hct Hp.
  rewrite (call_gemini_api_response _ Hnet).
  unfold response_text.
  repeat (cbn [py_contains getitem_key getitem_0 py_len py_get bind length Nat.ltb Nat.leb];
          rewrite ?Hc, ?Hct, ?Hp).
  split.
  - intros t Ht. now rewrite Ht.
  - intros Ht. now rewrite Ht.
Qed.

(** C6: on an HTTP error response with status [code] whose body reads as
    [error_body], [call_gemini_api] returns ["HTTP Error <code>: <body>"];
    after the prefix ["HTTP Error "] the string reads as the number [code],
    followed by [": "] and the body. *)
Theorem call_gemini_api_http_error (code : Z) (reason error_body : string) :
  urlopen (build_request api_key message)
    = Raise (HTTPError code reason (BodyText error_body)) ->
  call_gemini_api urlopen api_key message
    = Return (PyStr ("HTTP Error " ++ str_int code ++ ": " ++ error_body))
  /\ Json.strip_prefix "HTTP Error " ("HTTP Error " ++ str_int code ++ ": " ++ error_body)
     = Some (str_int code ++ ": " ++ error_body)
  /\ Json.parse_number (str_int code ++ ": " ++ error_body)
     = Some (code, ": " ++ error_body).
Proof.
  intros Hnet. unfold call_gemini_api. rewrite Hnet. simpl.
  repeat split. now apply parse_number_str_int.
Qed.

(** C7, as amended: for a response object that lacks the candidate
    structure in one of the ways of [lacks_candidate_text],
    [call_gemini_api] returns [json.dumps] of the response, and
    [json.loads] of that string is the response again. *)
Theorem call_gemini_api_fallback (response_data : pyobj) :
  urlopen (build_request api_key message) = Return response_data ->
  Json.well_formed response_data ->
  lacks_candidate_text response_data ->
  call_gemini_api urlopen api_key message = Return (PyStr (Json.dumps response_data))
  /\ Json.loads (Json.dumps response_data) = Some response_data.
Proof.
  intros Hnet Hwf Hlacks. split; [|now apply loads_dumps].
  rewrite (call_gemini_api_response _ Hnet).
  destruct Hlacks as [r H1 | r H1 | r c o H1 H2 | r c o ct H1 H2 H3 | r c o ct H1 H2 H3];
    unfold response_text;
    repeat (cbn [py_contains getitem_key getitem_0 py_len py_get bind length Nat.ltb Nat.leb];
            rewrite ?H1, ?H2, ?H3);
    reflexivity.
Qed.

(** Every way of lacking the structure listed in [lacks_candidate_text]
    leaves the key path absent. *)
Lemma lacks_candidate_text_no_first_part (response_data : pyobj) :
  lacks_candidate_text response_data -> first_part response_data = None.
Proof.
  intros [r H1 | r H1 | r c o H1 H2 | r c o ct H1 H2 H3 | r c o ct H1 H2 H3];
    unfold first_part; simpl; rewrite H1; simpl; rewrite ?H2; simpl; rewrite ?H3; reflexivity.
Qed.

(** Apart from an HTTP error whose body does not decode, every outcome of
    the exchange makes [call_gemini_api] return. *)
Lemma call_gemini_api_returns_otherwise :
  (forall code reason msg,
      urlopen (build_request api_key message)
      <> Raise (HTTPError code reason (BodyUndecodable msg))) ->
  exists r, call_gemini_api urlopen api_key message = Return r.
Proof.
  intros Hbody.
  destruct (urlopen (build_request api_key message)) as [v|e] eqn:Hnet.
  - rewrite (call_gemini_api_response v Hnet).
    destruct (response_text v); eauto.
  - unfold call_gemini_api. rewrite Hnet. simpl.
    destruct e; eauto. destruct body; eauto.
    now destruct (Hbody code reason msg).
Qed.

End gemini_bridge.

(** C3: [call_gemini_api] can raise.  On an HTTP error response whose body
    is not UTF-8, [decode] raises inside the [except HTTPError] handler and
    the exception leaves the function; no string is returned. *)
Theorem call_gemini_api_raises
    (api_key message : string) (code : Z) (reason msg : string) :
  let urlopen : network := fun _ => Raise (HTTPError code reason (BodyUndecodable msg)) in
  GeminiApiBridge.call_gemini_api urlopen api_key message = Raise (UnicodeDecodeError msg)
  /\ (forall s, GeminiApiBridge.call_gemini_api urlopen api_key message <> Return s)
  /\ GeminiApiBridge.ended (GeminiApiBridge.call_and_print urlopen api_key message)
     = GeminiApiBridge.Uncaught (UnicodeDecodeError msg).
Proof. repeat split. discriminate. Qed.

Lemma call_gemini_api_returns_text_witness :
  Json.loads scenario_body = Some scenario_response
  /\ GeminiApiBridge.call_gemini_api (fun _ => Return scenario_response) "k" "hello"
     = Return (PyStr "hi there").
Proof.
  split; [vm_compute; reflexivity|].
  apply (proj1 (call_gemini_api_returns_text (fun _ => Return scenario_response) "k" "hello"
                  [("candidates",
                    PyList [PyDict [("content",
                                     PyDict [("parts", PyList [PyDict [("text", PyStr "hi there")]])])]])]
                  [("content", PyDict [("parts", PyList [PyDict [("text", PyStr "hi there")]])])]
                  [("parts", PyList [PyDict [("text", PyStr "hi there")]])]
                  [("text", PyStr "hi there")] [] []
                  eq_refl eq_refl eq_refl eq_refl));
    reflexivity.
Defined.

Lemma call_gemini_api_http_error_witness :
  GeminiApiBridge.call_gemini_api
    (fun _ => Raise (HTTPError 404 "Not Found" (BodyText "no such model"))) "k" "hello"
  = Return (PyStr "HTTP Error 404: no such model").
Proof.
  apply (proj1 (call_gemini_api_http_error
                  (fun _ => Raise (HTTPError 404 "Not Found" (BodyText "no such model")))
                  "k" "hello" 404 "Not Found" "no such model" eq_refl)).
Defined.

Lemma call_gemini_api_fallback_witness :
  GeminiApiBridge.call_gemini_api (fun _ => Return error_response) "k" "hello"
  = Return (PyStr (Json.dumps error_response))
  /\ Json.loads (Json.dumps error_response) = Some error_response.
Proof.
  apply (call_gemini_api_fallback (fun _ => Return error_response) "k" "hello" error_response).
  - reflexivity.
  - simpl. repeat split; compute_done.
  - apply no_candidates. reflexivity.
Defined.

Lemma call_gemini_api_fallback_counterexample :
  ~ (forall (urlopen : network) (api_key message : string) (response_data : pyobj),
        urlopen (GeminiApiBridge.build_request api_key message) = Return response_data ->
        Json.well_formed response_data ->
        first_part response_data = None ->
        exists s, GeminiApiBridge.call_gemini_api urlopen api_key message = Return (PyStr s)
                  /\ Json.loads s = Some response_data).
Proof.
  intros H.
  destruct (H (fun _ => Return null_content_response) "k" "hello" null_content_response)
    as [s [Hs Hl]].
  - reflexivity.
  - simpl. repeat split; compute_done.
  - reflexivity.
  - vm_compute in Hs. injection Hs as <-. vm_compute in Hl. discriminate Hl.
Qed.

(** ** gemini_api_bridge.py: where the key and the message come from *)

(** C8, as amended: when both environment variables are set to non-empty
    values, these are the key and the message; when one of them is unset or
    empty, three elements in [sys.argv] give the key and the message, and
    any other number of them ends the process with status 1, the usage text
    on standard error and nothing on standard output. *)
Theorem main_input_resolution
    (environ : gmap string string) (argv : list string) (urlopen : network) :
  (forall k m,
      environ !! "GEMINI_API_KEY" = Some k -> environ !! "GEMINI_MESSAGE" = Some m ->
      k <> EmptyString -> m <> EmptyString ->
      GeminiApiBridge.main environ argv urlopen = GeminiApiBridge.call_and_print urlopen k m)
  /\ (environ !! "GEMINI_API_KEY" = None \/ environ !! "GEMINI_API_KEY" = Some EmptyString
      \/ environ !! "GEMINI_MESSAGE" = None \/ environ !! "GEMINI_MESSAGE" = Some EmptyString ->
      (forall script a1 a2,
          argv = [script; a1; a2] ->
          GeminiApiBridge.main environ argv urlopen = GeminiApiBridge.call_and_print urlopen a1 a2)
      /\ (length argv <> 3 ->
          GeminiApiBridge.main environ argv urlopen
          = {| GeminiApiBridge.ended := GeminiApiBridge.Exit 1;
               GeminiApiBridge.stdout := [];
               GeminiApiBridge.stderr := GeminiApiBridge.usage |})).
Proof.
  unfold GeminiApiBridge.main. split.
  - intros k m -> -> Hk Hm.
    destruct k; [congruence|]. destruct m; [congruence|]. reflexivity.
  - intros Hunset.
    assert (Hb : GeminiApiBridge.unset_or_empty (environ !! "GEMINI_API_KEY")
                 || GeminiApiBridge.unset_or_empty (environ !! "GEMINI_MESSAGE") = true).
    { destruct Hunset as [-> | [-> | [-> | ->]]]; simpl; try reflexivity;
        apply orb_true_r. }
    rewrite Hb. split.
    + intros script a1 a2 ->. reflexivity.
    + intros Hlen. apply Nat.eqb_neq in Hlen. now rewrite Hlen.
Qed.

Lemma main_input_resolution_witness :
  GeminiApiBridge.main ∅ ["gemini_api_bridge.py"] (fun _ => Return scenario_response)
  = {| GeminiApiBridge.ended := GeminiApiBridge.Exit 1;
       GeminiApiBridge.stdout := [];
       GeminiApiBridge.stderr := GeminiApiBridge.usage |}.
Proof.
  apply (proj2 (main_input_resolution ∅ ["gemini_api_bridge.py"] (fun _ => Return scenario_response))).
  - left. reflexivity.
  - simpl. lia.
Defined.

(** Both variables are set, the message to the empty string: the script
    falls back to [sys.argv] and prints the usage text. *)
Lemma main_input_resolution_counterexample :
  ~ (forall (environ : gmap string string) (argv : list string) (urlopen : network) k m,
        environ !! "GEMINI_API_KEY" = Some k -> environ !! "GEMINI_MESSAGE" = Some m ->
        GeminiApiBridge.main environ argv urlopen = GeminiApiBridge.call_and_print urlopen k m).
Proof.
  intros H.
  specialize (H {["GEMINI_API_KEY" := "k"; "GEMINI_MESSAGE" := EmptyString]}
                ["gemini_api_bridge.py"] (fun _ => Return scenario_response)
                "k" EmptyString eq_refl eq_refl).
  vm_compute in H. discriminate H.
Qed.

(** ** pixelart.py *)

Section pixelart.
Import Pixelart.

Variable API_KEY : option string.
Variable urlopen : network.
Variable w : world.
Variables response_data base64_images : pyobj.
Hypothesis Hnet : urlopen (req API_KEY) = Return response_data.

(** An exception of the extractor is reported as unexpected; nothing is
    written. *)
Lemma run_extract_raises (e : exn) :
  plain (@Raise pyobj e) ->
  (forall reason, e <> URLError reason) ->
  extract response_data = Raise e ->
  run API_KEY urlopen w
  = {| fs := fs w;
       stdout := stdout w ++ [response_line response_data; "Unexpected error: " ++ str_exn e] |}.
Proof.
  intros Hp Hu Hext.
  unfold run, try_block, seq, lift, print, raise, ret, on_fs.
  rewrite Hnet. cbn [fst snd fs stdout]. rewrite Hext. cbn [fst snd fs stdout].
  rewrite <- app_assoc.
  destruct e; try reflexivity; [destruct Hp | now destruct (Hu reason)].
Qed.

Hypothesis Hext : extract response_data = Return base64_images.

(** Line 69: a payload that is [None] or empty. *)
Lemma run_no_image :
  truthy base64_images = false ->
  run API_KEY urlopen w
  = {| fs := fs w;
       stdout := stdout w ++ [response_line response_data; "Unexpected error: " ++ no_image] |}.
Proof.
  intros Ht.
  unfold run, try_block, seq, lift, print, raise, ret, on_fs.
  rewrite Hnet. cbn [fst snd fs stdout]. rewrite Hext. cbn [fst snd fs stdout].
  rewrite Ht. cbn [negb fst snd fs stdout]. now rewrite <- app_assoc.
Qed.

(** Lines 73 to 77: a payload the decoder refuses. *)
Lemma run_decode_raises (e : exn) :
  truthy base64_images = true ->
  Base64.b64decode base64_images = Raise e ->
  run API_KEY urlopen w
  = {| fs := fs w;
       stdout := stdout w ++ [response_line response_data;
                              "Unexpected error: " ++ decode_failed ++ str_exn e] |}.
Proof.
  intros Ht Hd.
  unfold run, try_block, seq, lift, print, raise, ret, on_fs.
  rewrite Hnet. cbn [fst snd fs stdout]. rewrite Hext. cbn [fst snd fs stdout].
  rewrite Ht. cbn [negb fst snd fs stdout]. rewrite Hd. cbn [fst snd fs stdout str_exn].
  now rewrite <- app_assoc.
Qed.

(** Lines 79 to 88: a payload the decoder accepts. *)
Lemma run_decoded (image_data : list byte) :
  truthy base64_images = true ->
  Base64.b64decode base64_images = Return image_data ->
  run API_KEY urlopen w
  = let out := (stdout w ++ [response_line response_data; "Base64 decode: OK"])%list in
    match makedirs_exist_ok assets_folder (fs w) with
    | Raise e => {| fs := fs w; stdout := out ++ ["Unexpected error: " ++ str_exn e] |}
    | Return fs1 =>
        match write_binary assets_folder output_name image_data fs1 with
        | Raise e => {| fs := fs1; stdout := out ++ ["Unexpected error: " ++ str_exn e] |}
        | Return fs2 => {| fs := fs2; stdout := out ++ ["Image saved to " ++ output_file] |}
        end
    end.
Proof.
  intros Ht Hd.
  unfold run, try_block, seq, lift, print, raise, ret, on_fs.
  rewrite Hnet. cbn [fst snd fs stdout]. rewrite Hext. cbn [fst snd fs stdout].
  rewrite Ht. cbn [negb fst snd fs stdout]. rewrite Hd. cbn [fst snd fs stdout].
  rewrite <- app_assoc. cbn [app].
  unfold makedirs_exist_ok.
  destruct (fs w !! assets_folder) as [[|old]|]; cbn [fst snd fs stdout str_exn];
    try reflexivity;
    unfold write_binary;
    match goal with
    | |- context [?m !! assets_folder] => destruct (m !! assets_folder) as [[|?]|]
    end; cbn [fst snd fs stdout str_exn]; try reflexivity;
    match goal with
    | |- context [?m !! os_path_join assets_folder output_name] =>
        destruct (m !! os_path_join assets_folder output_name) as [[|?]|]
    end; reflexivity.
Qed.

End pixelart.

(** C1: for a first element that is an object holding [image_b64], the
    extractor yields the string [b]; for a first element that is the plain
    string [b], it yields the one-element list [[b]], not [b], and the
    decoder then refuses the list: the script reports a decode failure and
    writes nothing. *)
Theorem extract_first_image (b : string) :
  Pixelart.extract (PyDict [("images", PyList [PyDict [("image_b64", PyStr b)]])])
    = Return (PyStr b)
  /\ Pixelart.extract (PyDict [("images", PyList [PyStr b])]) = Return (PyList [PyStr b])
  /\ PyList [PyStr b] <> PyStr b
  /\ forall API_KEY w,
      Pixelart.run API_KEY (fun _ => Return (PyDict [("images", PyList [PyStr b])])) w
      = {| Pixelart.fs := Pixelart.fs w;
           Pixelart.stdout :=
             Pixelart.stdout w
               ++ [response_line (PyDict [("images", PyList [PyStr b])]);
                   "Unexpected error: Base64 decode failed: argument should be a bytes-like object or ASCII string, not 'list'"] |}.
Proof.
  repeat split; try reflexivity; try discriminate.
  intros API_KEY w.
  exact (run_decode_raises API_KEY (fun _ => Return (PyDict [("images", PyList [PyStr b])])) w
           (PyDict [("images", PyList [PyStr b])]) (PyList [PyStr b])
           eq_refl eq_refl _ eq_refl eq_refl).
Qed.

(** C4: for a response whose [images] array is empty, line 49 raises
    [IndexError] before the test of line 69; the script reports
    ["list index out of range"], not the missing image, and writes nothing. *)
Theorem empty_images_index_error (API_KEY : option string) (w : Pixelart.world) :
  Pixelart.extract (PyDict [("images", PyList [])])
    = Raise (IndexError "list index out of range")
  /\ Pixelart.run API_KEY (fun _ => Return (PyDict [("images", PyList [])])) w
     = {| Pixelart.fs := Pixelart.fs w;
          Pixelart.stdout :=
            Pixelart.stdout w
              ++ [response_line (PyDict [("images", PyList [])]);
                  "Unexpected error: list index out of range"] |}
  /\ "Unexpected error: list index out of range"
     <> "Unexpected error: " ++ Pixelart.no_image.
Proof.
  repeat split; try discriminate.
  apply (run_extract_raises API_KEY (fun _ => Return (PyDict [("images", PyList [])])) w
           (PyDict [("images", PyList [])]) eq_refl (IndexError "list index out of range"));
    [exact I | discriminate | reflexivity].
Qed.

(** The other half of C4: a response of none of the recognised shapes is
    reported as holding no image, and nothing is written. *)
Lemma unrecognised_shape_no_image
    (API_KEY : option string) (urlopen : network) (w : Pixelart.world) (response_data : pyobj) :
  urlopen (Pixelart.req API_KEY) = Return response_data ->
  json_key "images" response_data = None ->
  response_data = PyList [] \/ isinstance_list response_data || isinstance_str response_data = false ->
  Pixelart.run API_KEY urlopen w
  = {| Pixelart.fs := Pixelart.fs w;
       Pixelart.stdout :=
         Pixelart.stdout w
           ++ [response_line response_data; "Unexpected error: " ++ Pixelart.no_image] |}.
Proof.
  intros Hnet Himg Hshape.
  apply (run_no_image API_KEY urlopen w response_data PyNone Hnet); [|reflexivity].
  destruct Hshape as [-> | Hshape]; [reflexivity|].
  destruct response_data as [| | | |items|members]; try reflexivity; try discriminate.
  simpl in Himg. simpl. now rewrite Himg.
Qed.

(** C5, as amended: when [base64.b64decode] raises on the extracted
    payload, the script reports ["Base64 decode failed: "] followed by the
    decoder's message, which is not the report of a missing image, and
    writes nothing. *)
Theorem decode_failure_reported
    (API_KEY : option string) (urlopen : network) (w : Pixelart.world)
    (response_data base64_images : pyobj) (e : exn) :
  urlopen (Pixelart.req API_KEY) = Return response_data ->
  Pixelart.extract response_data = Return base64_images ->
  truthy base64_images = true ->
  Base64.b64decode base64_images = Raise e ->
  Pixelart.run API_KEY urlopen w
  = {| Pixelart.fs := Pixelart.fs w;
       Pixelart.stdout :=
         Pixelart.stdout w
           ++ [response_line response_data;
               "Unexpected error: Base64 decode failed: " ++ str_exn e] |}
  /\ "Unexpected error: Base64 decode failed: " ++ str_exn e
     <> "Unexpected error: " ++ Pixelart.no_image.
Proof.
  intros Hnet Hext Ht Hd. split; [|discriminate].
  exact (run_decode_raises API_KEY urlopen w _ _ Hnet Hext e Ht Hd).
Qed.

Lemma decode_failure_reported_witness :
  Pixelart.run None (fun _ => Return (image_response "QUJDRA=")) empty_world
  = {| Pixelart.fs := ∅;
       Pixelart.stdout :=
         [response_line (image_response "QUJDRA=");
          "Unexpected error: Base64 decode failed: Incorrect padding"] |}.
Proof.
  apply (proj1 (decode_failure_reported None (fun _ => Return (image_response "QUJDRA="))
                  empty_world (image_response "QUJDRA=") (PyStr "QUJDRA=")
                  (binascii_Error "Incorrect padding") eq_refl eq_refl eq_refl eq_refl)).
Defined.

(** The payload [!!!!] is not base64, yet the decoder skips its characters
    and returns no bytes: no failure is reported and an empty file is
    written. *)
Lemma decode_failure_reported_counterexample :
  ~ (forall (API_KEY : option string) (urlopen : network) (w : Pixelart.world)
            (response_data : pyobj) (payload : string),
        urlopen (Pixelart.req API_KEY) = Return response_data ->
        Pixelart.extract response_data = Return (PyStr payload) ->
        Base64.valid_base64 payload = false ->
        Pixelart.fs (Pixelart.run API_KEY urlopen w) = Pixelart.fs w
        /\ exists msg,
            last (Pixelart.stdout (Pixelart.run API_KEY urlopen w))
            = Some ("Unexpected error: Base64 decode failed: " ++ msg)).
Proof.
  intros H.
  destruct (H None (fun _ => Return (image_response "!!!!")) empty_world
              (image_response "!!!!") "!!!!" eq_refl eq_refl eq_refl) as [Hfs _].
  assert (Hfile : Pixelart.fs (Pixelart.run None (fun _ => Return (image_response "!!!!")) empty_world)
                    !! Pixelart.output_file = Some (File [])) by (vm_compute; reflexivity).
  rewrite Hfs in Hfile. vm_compute in Hfile. discriminate Hfile.
Qed.

(** C9: when the extracted payload is not empty and decodes to the bytes
    [image_data], and [./assets] is missing or a directory and the output
    path is missing or a file, then after the run [./assets] is a
    directory, the output file holds exactly [image_data], every other path
    is as before, and the script has printed where the image was saved. *)
Theorem image_saved
    (API_KEY : option string) (urlopen : network) (w : Pixelart.world)
    (response_data base64_images : pyobj) (image_data : list byte) :
  urlopen (Pixelart.req API_KEY) = Return response_data ->
  Pixelart.extract response_data = Return base64_images ->
  truthy base64_images = true ->
  Base64.b64decode base64_images = Return image_data ->
  Pixelart.fs w !! Pixelart.assets_folder = None
    \/ Pixelart.fs w !! Pixelart.assets_folder = Some Dir ->
  Pixelart.fs w !! Pixelart.output_file = None
    \/ (exists old, Pixelart.fs w !! Pixelart.output_file = Some (File old)) ->
  let w' := Pixelart.run API_KEY urlopen w in
  Pixelart.fs w' !! Pixelart.assets_folder = Some Dir
  /\ Pixelart.fs w' !! Pixelart.output_file = Some (File image_data)
  /\ (forall path, path <> Pixelart.assets_folder -> path <> Pixelart.output_file ->
                   Pixelart.fs w' !! path = Pixelart.fs w !! path)
  /\ Pixelart.stdout w'
     = (Pixelart.stdout w
          ++ [response_line response_data; "Base64 decode: OK";
              "Image saved to ./assets/output1.png"])%list.
Proof.
  intros Hnet Hext Ht Hd Hdir Hout w'. subst w'.
  rewrite (run_decoded API_KEY urlopen w _ _ Hnet Hext image_data Ht Hd).
  assert (Hne : Pixelart.assets_folder <> Pixelart.output_file) by discriminate.
  set (fs1 := match Pixelart.fs w !! Pixelart.assets_folder with
              | None => <[Pixelart.assets_folder := Dir]> (Pixelart.fs w)
              | Some _ => Pixelart.fs w
              end).
  assert (Hmk : makedirs_exist_ok Pixelart.assets_folder (Pixelart.fs w) = Return fs1).
  { unfold makedirs_exist_ok, fs1. destruct Hdir as [-> | ->]; reflexivity. }
  assert (Hd1 : fs1 !! Pixelart.assets_folder = Some Dir).
  { unfold fs1. destruct Hdir as [H | H]; rewrite H; [apply lookup_insert_eq | exact H]. }
  assert (Hother : forall path, path <> Pixelart.assets_folder ->
                                fs1 !! path = Pixelart.fs w !! path).
  { intros path Hp. unfold fs1.
    destruct (Pixelart.fs w !! Pixelart.assets_folder); [reflexivity|].
    now apply lookup_insert_ne. }
  assert (Hwr : write_binary Pixelart.assets_folder Pixelart.output_name image_data fs1
                = Return (<[Pixelart.output_file := File image_data]> fs1)).
  { unfold write_binary. rewrite Hd1.
    change (os_path_join Pixelart.assets_folder Pixelart.output_name) with Pixelart.output_file.
    rewrite (Hother Pixelart.output_file (not_eq_sym Hne)).
    destruct Hout as [-> | [old ->]]; reflexivity. }
  cbv zeta. rewrite Hmk, Hwr. cbn [Pixelart.fs Pixelart.stdout].
  repeat split.
  - rewrite lookup_insert_ne by (exact (not_eq_sym Hne)). exact Hd1.
  - apply lookup_insert_eq.
  - intros path Hp1 Hp2. rewrite lookup_insert_ne by congruence. now apply Hother.
  - now rewrite <- app_assoc.
Qed.

Lemma image_saved_witness :
  Base64.b64decode (PyStr "QUJD") = Return [x41; x42; x43]
  /\ Pixelart.fs (Pixelart.run None (fun _ => Return (image_response "QUJD")) empty_world)
       !! Pixelart.output_file = Some (File [x41; x42; x43]).
Proof.
  split; [reflexivity|].
  apply (image_saved None (fun _ => Return (image_response "QUJD")) empty_world
           (image_response "QUJD") (PyStr "QUJD") [x41; x42; x43]);
    try reflexivity; left; reflexivity.
Defined.

(** The loop of lines 53 to 56 stops at the first key the object holds. *)
Lemma search_keys_first (before after : list string) (key : string)
    (img_obj : list (string * pyobj)) (x : pyobj) :
  Forall (fun k => dict_get k img_obj = None) before ->
  dict_get key img_obj = Some x ->
  Pixelart.search_keys (before ++ key :: after)%list img_obj = x.
Proof.
  intros Hbefore Hkey. induction Hbefore as [|k ks Hk _ IH]; simpl.
  - now rewrite Hkey.
  - now rewrite Hk.
Qed.

(** C10: when the first element of [images] is an object and the first of
    the five keys it holds is bound to [None], an empty string or another
    false value, the script reports that no image was found; it neither
    decodes nor writes. *)
Theorem falsy_payload_no_image
    (API_KEY : option string) (urlopen : network) (w : Pixelart.world)
    (response img_obj : list (string * pyobj)) (others : list pyobj)
    (before after : list string) (key : string) (x : pyobj) :
  urlopen (Pixelart.req API_KEY) = Return (PyDict response) ->
  dict_get "images" response = Some (PyList (PyDict img_obj :: others)) ->
  Pixelart.candidate_keys = (before ++ key :: after)%list ->
  Forall (fun k => dict_get k img_obj = None) before ->
  dict_get key img_obj = Some x ->
  truthy x = false ->
  Pixelart.run API_KEY urlopen w
  = {| Pixelart.fs := Pixelart.fs w;
       Pixelart.stdout :=
         Pixelart.stdout w
           ++ [response_line (PyDict response);
               "Unexpected error: No base64 image found in API response!"] |}.
Proof.
  intros Hnet Himages Hkeys Hbefore Hkey Hfalsy.
  apply (run_no_image API_KEY urlopen w (PyDict response) x Hnet); [|exact Hfalsy].
  unfold Pixelart.extract. rewrite Himages. cbn [getitem_0 bind].
  rewrite Hkeys. now rewrite (search_keys_first before after key img_obj x Hbefore Hkey).
Qed.

Lemma falsy_payload_no_image_witness :
  Pixelart.run None
    (fun _ => Return (PyDict [("images", PyList [PyDict [("image", PyStr EmptyString)]])]))
    empty_world
  = {| Pixelart.fs := ∅;
       Pixelart.stdout :=
         [response_line (PyDict [("images", PyList [PyDict [("image", PyStr EmptyString)]])]);
          "Unexpected error: No base64 image found in API response!"] |}.
Proof.
  apply (falsy_payload_no_image None
           (fun _ => Return (PyDict [("images", PyList [PyDict [("image", PyStr EmptyString)]])]))
           empty_world
           [("images", PyList [PyDict [("image", PyStr EmptyString)]])]
           [("image", PyStr EmptyString)] []
           ["image_b64"] ["base64"; "data"; "base64_images"] "image" (PyStr EmptyString));
    try reflexivity.
  repeat constructor.
Defined.

(** ** The model on sample inputs *)

Example dumps_sample :
  Json.dumps (PyDict [("b", PyDict []); ("c", PyList [PyInt 1; PyInt (-20); PyNone; PyBool true])])
  = "{" ++ quoted "b" ++ ": {}, " ++ quoted "c" ++ ": [1, -20, null, true]}".
Proof. reflexivity. Qed.

Example dumps_escapes :
  Json.dumps (PyStr (String NEWLINE (String (chr 233) "x")))
  = quoted (String BACKSLASH "n" ++ String BACKSLASH "u00e9x").
Proof. reflexivity. Qed.

Example loads_sample :
  Json.loads (" [1 ,2, {" ++ quoted "a" ++ " : null , " ++ quoted "a" ++ ":false}] ")
  = Some (PyList [PyInt 1; PyInt 2; PyDict [("a", PyBool false)]]).
Proof. vm_compute. reflexivity. Qed.

Example loads_leading_zero : Json.loads "[01]" = None.
Proof. vm_compute. reflexivity. Qed.

Example py_str_sample :
  py_str (PyList [PyInt 1; PyNone; PyBool true; PyStr "a"]) = "[1, None, True, 'a']".
Proof. reflexivity. Qed.

Example b64decode_padded : Base64.b64decode (PyStr "YQ==") = Return [x61].
Proof. reflexivity. Qed.

Example b64decode_skips : Base64.b64decode (PyStr "Y!Q==") = Return [x61].
Proof. reflexivity. Qed.

Example b64decode_stops_at_padding : Base64.b64decode (PyStr "YQ==QUJD") = Return [x61].
Proof. reflexivity. Qed.

Example b64decode_pad_reset : Base64.b64decode (PyStr "YQ=a=") = Return [x61; x06].
Proof. reflexivity. Qed.

Example b64decode_incorrect_padding :
  Base64.b64decode (PyStr "YQ=") = Raise (binascii_Error "Incorrect padding").
Proof. reflexivity. Qed.

Example b64decode_one_character :
  Base64.b64decode (PyStr "QUJDR")
  = Raise (binascii_Error
             "Invalid base64-encoded string: number of data characters (5) cannot be 1 more than a multiple of 4").
Proof. reflexivity. Qed.

Example b64decode_non_ascii :
  Base64.b64decode (PyStr (String (chr 233) EmptyString))
  = Raise (ValueError "string argument should contain only ASCII characters").
Proof. reflexivity. Qed.

(** The scenario of the specification: both variables set, the endpoint
    answering with one candidate whose text is [hi there]. *)
Example main_scenario :
  GeminiApiBridge.main {["GEMINI_API_KEY" := "k"; "GEMINI_MESSAGE" := "hello"]}
    ["gemini_api_bridge.py"]
    (fun _ => match Json.loads scenario_body with
              | Some v => Return v
              | None => Raise (OtherException "Expecting value")
              end)
  = {| GeminiApiBridge.ended := GeminiApiBridge.Exit 0;
       GeminiApiBridge.stdout := ["hi there"];
       GeminiApiBridge.stderr := [] |}.
Proof. vm_compute. reflexivity. Qed.

(** A valid payload under [image_b64] is decoded and saved. *)
Example run_saves_image :
  Pixelart.run None (fun _ => Return (image_response "QUJD")) empty_world
  = {| Pixelart.fs := {[ "./assets" := Dir; "./assets/output1.png" := File [x41; x42; x43] ]};
       Pixelart.stdout := [response_line (image_response "QUJD"); "Base64 decode: OK";
                           "Image saved to ./assets/output1.png"] |}.
Proof. vm_compute. reflexivity. Qed.

(** * Further properties *)

(** ** gemini_api_bridge.py: the request *)



(** ** gemini_api_bridge.py: every shape of response *)

Ltac response_cases :=
  repeat first
    [ progress cbn [py_contains getitem_key getitem_0 py_len py_get bind
                    json_key json_first length Nat.ltb Nat.leb]
    | match goal with
      | |- context [dict_get ?k ?m] =>
          let E := fresh "E" in destruct (dict_get k m) as [?|] eqn:E
      | |- context [existsb ?f ?l] => destruct (existsb f l)
      | |- context [substring_of ?a ?b] => destruct (substring_of a b)
      | |- context [json_key _ ?v] => is_var v; destruct v
      | |- context [json_first ?v] => is_var v; destruct v
      | |- context [py_contains _ ?v] => is_var v; destruct v
      | |- context [py_len ?v] => is_var v; destruct v
      | |- context [getitem_0 ?v] => is_var v; destruct v
      | |- context [py_get ?v _ _] => is_var v; destruct v
      | |- context [match ?s with EmptyString => _ | String _ _ => _ end] => is_var s; destruct s
      | |- context [match ?l with [] => _ | _ :: _ => _ end] => is_var l; destruct l
      | |- context [length ?l] => is_var l; destruct l
      | |- context [String.length ?s] => is_var s; destruct s
      end ].

(** Lines 32 to 39 on every object: the text of the first part when the key
    path leads to an object, and otherwise the response serialised again or
    an exception. *)
Lemma response_text_cases (response_data : pyobj) :
  match first_part response_data with
  | Some (PyDict fields) =>
      GeminiApiBridge.response_text response_data
      = Return (match dict_get "text" fields with Some t => t | None => PyStr EmptyString end)
  | _ =>
      GeminiApiBridge.response_text response_data = Return (PyStr (Json.dumps response_data))
      \/ exists e, GeminiApiBridge.response_text response_data = Raise e
  end.
Proof.
  unfold GeminiApiBridge.response_text, first_part.
  destruct response_data as [| b | n | s | items | members];
    response_cases;
    first [ reflexivity | left; reflexivity | right; eexists; reflexivity ].
Qed.



(** X3: [call_gemini_api] returns an object that is not a [str] only when
    the exchange succeeded, the key path leads to an object, and the object
    returned is the value of that object's [text] field. *)
Theorem call_gemini_api_non_str_result
    (urlopen : network) (api_key message : string) (v : pyobj) :
  GeminiApiBridge.call_gemini_api urlopen api_key message = Return v ->
  isinstance_str v = false ->
  exists response_data fields,
    urlopen (GeminiApiBridge.build_request api_key message) = Return response_data
    /\ first_part response_data = Some (PyDict fields)
    /\ dict_get "text" fields = Some v.
Proof.
  intros Hcall Hv.
  destruct (urlopen (GeminiApiBridge.build_request api_key message)) as [r|e] eqn:Hnet.
  - rewrite (call_gemini_api_response urlopen api_key message _ Hnet) in Hcall.
    pose proof (response_text_cases r) as Hcases.
    destruct (first_part r) as [[| | | | |fields]|] eqn:Hpath;
      try (destruct Hcases as [H | [e H]]; rewrite H in Hcall;
           injection Hcall as <-; discriminate).
    rewrite Hcases in Hcall. injection Hcall as <-.
    exists r, fields. repeat split; try assumption.
    destruct (dict_get "text" fields); [reflexivity | discriminate].
  - unfold GeminiApiBridge.call_gemini_api in Hcall. rewrite Hnet in Hcall. simpl in Hcall.
    destruct e; try (injection Hcall as <-; discriminate).
    destruct body; [injection Hcall as <- |]; discriminate.
Qed.

Lemma call_gemini_api_non_str_result_witness :
  GeminiApiBridge.call_gemini_api (fun _ => Return number_text_response) "k" "hello"
    = Return (PyInt 5)
  /\ exists response_data fields,
      Return number_text_response = Return response_data
      /\ first_part response_data = Some (PyDict fields)
      /\ dict_get "text" fields = Some (PyInt 5).
Proof.
  split; [reflexivity|].
  apply (call_gemini_api_non_str_result (fun _ => Return number_text_response) "k" "hello"
           (PyInt 5)); reflexivity.
Defined.

(** X4: when the first part of the first candidate is not an object (a
    string, a number, [null], an array), [.get] raises [AttributeError] and
    [call_gemini_api] returns the ["Error: ..."] string naming the type of
    the part. *)
Theorem call_gemini_api_part_not_object
    (urlopen : network) (api_key message : string)
    (response candidate content : list (string * pyobj)) (part : pyobj)
    (other_candidates other_parts : list pyobj) :
  urlopen (GeminiApiBridge.build_request api_key message) = Return (PyDict response) ->
  dict_get "candidates" response = Some (PyList (PyDict candidate :: other_candidates)) ->
  dict_get "content" candidate = Some (PyDict content) ->
  dict_get "parts" content = Some (PyList (part :: other_parts)) ->
  isinstance_dict part = false ->
  GeminiApiBridge.call_gemini_api urlopen api_key message
  = Return (PyStr ("Error: '" ++ type_name part ++ "' object has no attribute 'get'")).
Proof.
  intros Hnet Hc Hct Hp Hpart.
  rewrite (call_gemini_api_response urlopen api_key message _ Hnet).
  unfold GeminiApiBridge.response_text.
  repeat (cbn [py_contains getitem_key getitem_0 py_len py_get bind length Nat.ltb Nat.leb];
          rewrite ?Hc, ?Hct, ?Hp).
  destruct part; try reflexivity; discriminate.
Qed.

Lemma call_gemini_api_part_not_object_witness :
  GeminiApiBridge.call_gemini_api
    (fun _ => Return (PyDict [("candidates",
                               PyList [PyDict [("content",
                                                PyDict [("parts", PyList [PyStr "hi there"])])]])]))
    "k" "hello"
  = Return (PyStr "Error: 'str' object has no attribute 'get'").
Proof.
  apply (call_gemini_api_part_not_object _ "k" "hello"
           [("candidates", PyList [PyDict [("content", PyDict [("parts", PyList [PyStr "hi there"])])]])]
           [("content", PyDict [("parts", PyList [PyStr "hi there"])])]
           [("parts", PyList [PyStr "hi there"])]
           (PyStr "hi there") [] []); reflexivity.
Defined.

Lemma existsb_is_str (k : string) (items : list pyobj) :
  existsb (is_str k) items = true <-> In (PyStr k) items.
Proof.
  rewrite existsb_exists. split.
  - intros [x [Hin Hx]]. destruct x; try discriminate.
    simpl in Hx. apply String.eqb_eq in Hx. now subst.
  - intros Hin. exists (PyStr k). split; [exact Hin|]. simpl. apply String.eqb_refl.
Qed.

Lemma prefix_append_iff (p s : string) :
  String.prefix p s = true <-> exists b, s = p ++ b.
Proof.
  revert s. induction p as [|c p IH]; intros s.
  - split; [intros _; now exists s | intros _; now destruct s].
  - destruct s as [|c' s]; simpl.
    + split; [discriminate | intros [b Hb]; discriminate].
    + destruct (ascii_dec c c') as [->|Hne].
      * rewrite IH. split; intros [b Hb]; exists b; congruence.
      * split; [discriminate | intros [b Hb]; congruence].
Qed.

Lemma substring_of_iff (sub s : string) :
  substring_of sub s = true <-> exists a b, s = a ++ sub ++ b.
Proof.
  induction s as [|c s IH]; cbn [substring_of].
  - rewrite orb_false_r, prefix_append_iff. split.
    + intros [b Hb]. now exists EmptyString, b.
    + intros [a [b H]]. destruct a; [now exists b | discriminate].
  - rewrite orb_true_iff, prefix_append_iff, IH. split.
    + intros [[b Hb] | [a [b ->]]].
      * now exists EmptyString, b.
      * now exists (String c a), b.
    + intros [a [b H]]. destruct a as [|c' a]; simpl in H.
      * left. now exists b.
      * right. injection H as _ ->. now exists a, b.
Qed.

(** X5: when the response is not a JSON object.  For [null], a number or a
    boolean the test [in] raises and the result is an ["Error: ..."]
    string.  An array is serialised again unless one of its elements is the
    string ["candidates"], and a string unless it contains [candidates];
    in those two cases indexing by the key raises and the result is an
    ["Error: ..."] string as well. *)
Theorem call_gemini_api_not_an_object
    (urlopen : network) (api_key message : string) (response_data : pyobj) :
  urlopen (GeminiApiBridge.build_request api_key message) = Return response_data ->
  (isinstance_dict response_data || isinstance_list response_data
     || isinstance_str response_data = false ->
   GeminiApiBridge.call_gemini_api urlopen api_key message
   = Return (PyStr ("Error: argument of type '" ++ type_name response_data
                      ++ "' is not iterable")))
  /\ (forall items, response_data = PyList items ->
        (~ In (PyStr "candidates") items ->
         GeminiApiBridge.call_gemini_api urlopen api_key message
         = Return (PyStr (Json.dumps response_data)))
        /\ (In (PyStr "candidates") items ->
            GeminiApiBridge.call_gemini_api urlopen api_key message
            = Return (PyStr "Error: list indices must be integers or slices, not str")))
  /\ (forall s, response_data = PyStr s ->
        ((forall a b, s <> a ++ "candidates" ++ b) ->
         GeminiApiBridge.call_gemini_api urlopen api_key message
         = Return (PyStr (Json.dumps response_data)))
        /\ (forall a b, s = a ++ "candidates" ++ b ->
            GeminiApiBridge.call_gemini_api urlopen api_key message
            = Return (PyStr "Error: string indices must be integers, not 'str'"))).
Proof.
  intros Hnet.
  rewrite (call_gemini_api_response urlopen api_key message _ Hnet).
  unfold GeminiApiBridge.response_text.
  split; [|split].
  - intros Hscalar. destruct response_data; try reflexivity; discriminate.
  - intros items ->. cbn [py_contains bind].
    destruct (existsb (is_str "candidates") items) eqn:E; split; intros H.
    + apply existsb_is_str in E. contradiction.
    + reflexivity.
    + reflexivity.
    + apply existsb_is_str in H. congruence.
  - intros s ->. cbn [py_contains bind].
    destruct (substring_of "candidates" s) eqn:E; split.
    + intros H. apply substring_of_iff in E as [a [b E]]. now destruct (H a b).
    + reflexivity.
    + reflexivity.
    + intros a b Hs. assert (substring_of "candidates" s = true) as E'
        by (apply substring_of_iff; eauto). congruence.
Qed.

Lemma call_gemini_api_not_an_object_witness :
  GeminiApiBridge.call_gemini_api (fun _ => Return PyNone) "k" "hello"
    = Return (PyStr "Error: argument of type 'NoneType' is not iterable")
  /\ GeminiApiBridge.call_gemini_api (fun _ => Return (PyList [PyStr "candidates"])) "k" "hello"
     = Return (PyStr "Error: list indices must be integers or slices, not str").
Proof.
  split.
  - apply (proj1 (call_gemini_api_not_an_object (fun _ => Return PyNone) "k" "hello" PyNone
                    eq_refl)).
    reflexivity.
  - apply (proj2 (proj1 (proj2 (call_gemini_api_not_an_object
                                  (fun _ => Return (PyList [PyStr "candidates"])) "k" "hello"
                                  (PyList [PyStr "candidates"]) eq_refl))
                          [PyStr "candidates"] eq_refl)).
    left. reflexivity.
Defined.

(** ** gemini_api_bridge.py: what the process shows of a failed exchange *)

Lemma main_from_environment
    (environ : gmap string string) (argv : list string) (urlopen : network) (k m : string) :
  environ !! "GEMINI_API_KEY" = Some k -> environ !! "GEMINI_MESSAGE" = Some m ->
  k <> EmptyString -> m <> EmptyString ->
  GeminiApiBridge.main environ argv urlopen = GeminiApiBridge.call_and_print urlopen k m.
Proof.
  intros Hk Hm Hk' Hm'. unfold GeminiApiBridge.main. rewrite Hk, Hm.
  destruct k; [congruence|]. destruct m; [congruence|]. reflexivity.
Qed.

(** X6: with the key and the message taken from the environment, a failed
    exchange does not change the exit status.  An HTTP error whose body
    reads as [b] and any other exception of the exchange are printed on
    standard output as ["HTTP Error <code>: <b>"] and ["Error: <message>"],
    standard error stays empty and the status is 0.  Only an HTTP error
    whose body does not decode ends the process by an exception, with
    nothing printed on standard output. *)
Theorem main_failed_exchange
    (environ : gmap string string) (argv : list string) (urlopen : network) (k m : string) :
  environ !! "GEMINI_API_KEY" = Some k -> environ !! "GEMINI_MESSAGE" = Some m ->
  k <> EmptyString -> m <> EmptyString ->
  (forall code reason b,
      urlopen (GeminiApiBridge.build_request k m) = Raise (HTTPError code reason (BodyText b)) ->
      GeminiApiBridge.main environ argv urlopen
      = {| GeminiApiBridge.ended := GeminiApiBridge.Exit 0;
           GeminiApiBridge.stdout := ["HTTP Error " ++ str_int code ++ ": " ++ b];
           GeminiApiBridge.stderr := [] |})
  /\ (forall e,
        urlopen (GeminiApiBridge.build_request k m) = Raise e ->
        (forall code reason body, e <> HTTPError code reason body) ->
        GeminiApiBridge.main environ argv urlopen
        = {| GeminiApiBridge.ended := GeminiApiBridge.Exit 0;
             GeminiApiBridge.stdout := ["Error: " ++ str_exn e];
             GeminiApiBridge.stderr := [] |})
  /\ (forall code reason msg,
        urlopen (GeminiApiBridge.build_request k m)
          = Raise (HTTPError code reason (BodyUndecodable msg)) ->
        GeminiApiBridge.main environ argv urlopen
        = {| GeminiApiBridge.ended := GeminiApiBridge.Uncaught (UnicodeDecodeError msg);
             GeminiApiBridge.stdout := [];
             GeminiApiBridge.stderr := [] |}).
Proof.
  intros Hk Hm Hk' Hm'.
  rewrite (main_from_environment environ argv urlopen k m Hk Hm Hk' Hm').
  unfold GeminiApiBridge.call_and_print, GeminiApiBridge.call_gemini_api.
  repeat split.
  - intros code reason b ->. reflexivity.
  - intros e -> He. simpl. destruct e; try reflexivity. now destruct (He code reason body).
  - intros code reason msg ->. reflexivity.
Qed.

Lemma main_failed_exchange_witness :
  GeminiApiBridge.main {["GEMINI_API_KEY" := "k"; "GEMINI_MESSAGE" := "hello"]}
    ["gemini_api_bridge.py"] (fun _ => Raise (URLError "timed out"))
  = {| GeminiApiBridge.ended := GeminiApiBridge.Exit 0;
       GeminiApiBridge.stdout := ["Error: <urlopen error timed out>"];
       GeminiApiBridge.stderr := [] |}.
Proof.
  destruct (main_failed_exchange
              {["GEMINI_API_KEY" := "k"; "GEMINI_MESSAGE" := "hello"]}
              ["gemini_api_bridge.py"] (fun _ => Raise (URLError "timed out"))
              "k" "hello") as [_ [H _]];
    [vm_compute; reflexivity | vm_compute; reflexivity | discriminate | discriminate |].
  apply (H (URLError "timed out") eq_refl). discriminate.
Defined.

(** ** pixelart.py: the files *)

Section pixelart_files.
Import Pixelart.

Variable API_KEY : option string.
Variable urlopen : network.
Variable w : world.

(** The handlers print; they leave the files as the [try] left them. *)
Lemma run_fs_try_block : fs (run API_KEY urlopen w) = fs (snd (try_block API_KEY urlopen w)).
Proof.
  unfold run. destruct (try_block API_KEY urlopen w) as [[u|e] w']; [reflexivity|].
  destruct e; try reflexivity. destruct body; reflexivity.
Qed.

Lemma run_fs_raised (e : exn) :
  urlopen (req API_KEY) = Raise e -> fs (run API_KEY urlopen w) = fs w.
Proof.
  intros Hnet. rewrite run_fs_try_block.
  unfold try_block, seq, lift. now rewrite Hnet.
Qed.

Lemma run_fs_returned (response_data : pyobj) :
  urlopen (req API_KEY) = Return response_data ->
  fs (run API_KEY urlopen w) = files_after response_data (fs w).
Proof.
  intros Hnet. rewrite run_fs_try_block.
  unfold try_block, seq, lift, print, raise, ret, on_fs, files_after, saved.
  rewrite Hnet. cbn [fst snd fs stdout].
  destruct (extract response_data) as [p|e]; [|reflexivity].
  destruct (truthy p); cbn [negb fst snd fs stdout]; [|reflexivity].
  destruct (Base64.b64decode p) as [d|e]; cbn [fst snd fs stdout]; [|reflexivity].
  destruct (makedirs_exist_ok assets_folder (fs w)) as [fs1|e]; cbn [fst snd fs stdout];
    [|reflexivity].
  destruct (write_binary assets_folder output_name d fs1); reflexivity.
Qed.

End pixelart_files.

Lemma assets_not_output : Pixelart.assets_folder <> Pixelart.output_file.
Proof. discriminate. Qed.

(** What [saved] does, by what [./assets] and the output path are. *)
Lemma saved_cases (d : list byte) (fs0 : gmap string node) :
  saved d fs0 =
  match fs0 !! Pixelart.assets_folder, fs0 !! Pixelart.output_file with
  | Some (File _), _ => fs0
  | Some Dir, Some Dir => fs0
  | Some Dir, _ => <[Pixelart.output_file := File d]> fs0
  | None, Some Dir => <[Pixelart.assets_folder := Dir]> fs0
  | None, _ => <[Pixelart.output_file := File d]> (<[Pixelart.assets_folder := Dir]> fs0)
  end.
Proof.
  unfold saved, makedirs_exist_ok, write_binary.
  change (os_path_join Pixelart.assets_folder Pixelart.output_name) with Pixelart.output_file.
  destruct (fs0 !! Pixelart.assets_folder) as [[|c]|] eqn:Ha.
  - rewrite Ha. destruct (fs0 !! Pixelart.output_file) as [[|c]|]; reflexivity.
  - reflexivity.
  - rewrite lookup_insert_eq.
    rewrite (lookup_insert_ne fs0 _ _ _ assets_not_output).
    destruct (fs0 !! Pixelart.output_file) as [[|c]|]; reflexivity.
Qed.

Lemma saved_frame (d : list byte) (fs0 : gmap string node) (path : string) :
  path <> Pixelart.assets_folder -> path <> Pixelart.output_file ->
  saved d fs0 !! path = fs0 !! path.
Proof.
  intros Ha Ho. rewrite saved_cases.
  destruct (fs0 !! Pixelart.assets_folder) as [[|c]|];
    destruct (fs0 !! Pixelart.output_file) as [[|c']|];
    rewrite ?lookup_insert_ne by congruence; reflexivity.
Qed.

Lemma saved_twice (d1 d2 : list byte) (fs0 : gmap string node) :
  saved d2 (saved d1 fs0) = saved d2 fs0.
Proof.
  pose proof assets_not_output as Hne.
  rewrite (saved_cases d1 fs0).
  destruct (fs0 !! Pixelart.assets_folder) as [[|c]|] eqn:Ha;
    destruct (fs0 !! Pixelart.output_file) as [[|c']|] eqn:Ho;
    rewrite !saved_cases;
    rewrite ?lookup_insert_eq, ?(lookup_insert_ne _ _ _ _ Hne),
            ?(lookup_insert_ne _ _ _ _ (not_eq_sym Hne)), ?lookup_insert_eq,
            ?Ha, ?Ho, ?insert_insert_eq;
    reflexivity.
Qed.

Lemma files_after_cases (response_data : pyobj) (fs0 : gmap string node) :
  files_after response_data fs0 = fs0
  \/ exists d, files_after response_data fs0 = saved d fs0.
Proof.
  unfold files_after.
  destruct (Pixelart.extract response_data) as [p|e]; [|now left].
  destruct (truthy p); [|now left].
  destruct (Base64.b64decode p) as [d|e]; [right; now exists d | now left].
Qed.

(** The files after any run: as before, or as [saved] leaves them. *)
Lemma run_fs_cases (API_KEY : option string) (urlopen : network) (w : Pixelart.world) :
  Pixelart.fs (Pixelart.run API_KEY urlopen w) = Pixelart.fs w
  \/ exists d, Pixelart.fs (Pixelart.run API_KEY urlopen w) = saved d (Pixelart.fs w).
Proof.
  destruct (urlopen (Pixelart.req API_KEY)) as [r|e] eqn:Hnet.
  - rewrite (run_fs_returned API_KEY urlopen w r Hnet). apply files_after_cases.
  - left. exact (run_fs_raised API_KEY urlopen w e Hnet).
Qed.

(** X7: whatever the exchange gives and whatever the files are, a run
    leaves every path other than [./assets] and [./assets/output1.png] as
    it was; [./assets] is as before or was missing and is now a directory;
    the output path is as before or now holds a file. *)
Theorem run_touches_two_paths
    (API_KEY : option string) (urlopen : network) (w : Pixelart.world) :
  let w' := Pixelart.run API_KEY urlopen w in
  (forall path, path <> Pixelart.assets_folder -> path <> Pixelart.output_file ->
                Pixelart.fs w' !! path = Pixelart.fs w !! path)
  /\ (Pixelart.fs w' !! Pixelart.assets_folder = Pixelart.fs w !! Pixelart.assets_folder
      \/ (Pixelart.fs w !! Pixelart.assets_folder = None
          /\ Pixelart.fs w' !! Pixelart.assets_folder = Some Dir))
  /\ (Pixelart.fs w' !! Pixelart.output_file = Pixelart.fs w !! Pixelart.output_file
      \/ exists d, Pixelart.fs w' !! Pixelart.output_file = Some (File d)).
Proof.
  pose proof assets_not_output as Hne.
  cbv zeta. destruct (run_fs_cases API_KEY urlopen w) as [-> | [d ->]].
  - repeat split; auto.
  - split; [|split].
    + intros path Ha Ho. now apply saved_frame.
    + rewrite saved_cases.
      destruct (Pixelart.fs w !! Pixelart.assets_folder) as [[|c]|] eqn:Ha;
        destruct (Pixelart.fs w !! Pixelart.output_file) as [[|c']|] eqn:Ho;
        rewrite ?(lookup_insert_ne _ _ _ _ (not_eq_sym Hne)), ?lookup_insert_eq; auto.
    + rewrite saved_cases.
      destruct (Pixelart.fs w !! Pixelart.assets_folder) as [[|c]|] eqn:Ha;
        destruct (Pixelart.fs w !! Pixelart.output_file) as [[|c']|] eqn:Ho;
        rewrite ?lookup_insert_eq, ?(lookup_insert_ne _ _ _ _ Hne); eauto.
Qed.

Lemma run_touches_two_paths_witness :
  Pixelart.fs (Pixelart.run None (fun _ => Return (image_response "QUJD"))
                 {| Pixelart.fs := {["./notes.txt" := File [x41]]}; Pixelart.stdout := [] |})
    !! "./notes.txt" = Some (File [x41]).
Proof.
  etrans.
  - apply (proj1 (run_touches_two_paths None (fun _ => Return (image_response "QUJD"))
                    {| Pixelart.fs := {["./notes.txt" := File [x41]]}; Pixelart.stdout := [] |})
             "./notes.txt"); discriminate.
  - reflexivity.
Defined.

(** X8: running the script again with the same outcome of the exchange
    leaves the files as the first run left them, whether the runs succeed
    or fail. *)
Theorem run_twice_same_files
    (API_KEY : option string) (urlopen : network) (w : Pixelart.world) :
  Pixelart.fs (Pixelart.run API_KEY urlopen (Pixelart.run API_KEY urlopen w))
  = Pixelart.fs (Pixelart.run API_KEY urlopen w).
Proof.
  destruct (urlopen (Pixelart.req API_KEY)) as [r|e] eqn:Hnet.
  - rewrite !(run_fs_returned API_KEY urlopen _ r Hnet).
    unfold files_after.
    destruct (Pixelart.extract r) as [p|e]; [|reflexivity].
    destruct (truthy p); [|reflexivity].
    destruct (Base64.b64decode p) as [d|e]; [apply saved_twice | reflexivity].
  - now rewrite !(run_fs_raised API_KEY urlopen _ e Hnet).
Qed.

(** X9: a run whose payload decodes leaves the same files whatever an
    earlier run did: the image is written over the earlier one, and a
    directory the earlier run made is not made again. *)
Theorem last_decoded_run_wins
    (API_KEY : option string) (earlier urlopen : network) (w : Pixelart.world)
    (response_data base64_images : pyobj) (image_data : list byte) :
  urlopen (Pixelart.req API_KEY) = Return response_data ->
  Pixelart.extract response_data = Return base64_images ->
  truthy base64_images = true ->
  Base64.b64decode base64_images = Return image_data ->
  Pixelart.fs (Pixelart.run API_KEY urlopen (Pixelart.run API_KEY earlier w))
  = Pixelart.fs (Pixelart.run API_KEY urlopen w).
Proof.
  intros Hnet Hext Ht Hd.
  rewrite !(run_fs_returned API_KEY urlopen _ response_data Hnet).
  unfold files_after. rewrite Hext, Ht, Hd.
  destruct (run_fs_cases API_KEY earlier w) as [-> | [d ->]];
    [reflexivity | apply saved_twice].
Qed.

Lemma last_decoded_run_wins_witness :
  Pixelart.fs (Pixelart.run None (fun _ => Return (image_response "QUJD"))
                 (Pixelart.run None (fun _ => Return (image_response "YQ==")) empty_world))
  = Pixelart.fs (Pixelart.run None (fun _ => Return (image_response "QUJD")) empty_world).
Proof.
  apply (last_decoded_run_wins None (fun _ => Return (image_response "YQ=="))
           (fun _ => Return (image_response "QUJD")) empty_world
           (image_response "QUJD") (PyStr "QUJD") [x41; x42; x43]); reflexivity.
Defined.

(** ** pixelart.py: a failed exchange *)

(** X10: on an HTTP error the script prints the status and the reason, then
    the body when it can be read and decoded; a body that cannot is passed
    over in silence.  Nothing is written. *)
Theorem run_http_error
    (API_KEY : option string) (urlopen : network) (w : Pixelart.world)
    (code : Z) (reason : string) (body : body_read) :
  urlopen (Pixelart.req API_KEY) = Raise (HTTPError code reason body) ->
  Pixelart.run API_KEY urlopen w
  = {| Pixelart.fs := Pixelart.fs w;
       Pixelart.stdout :=
         Pixelart.stdout w
           ++ ("HTTPError: " ++ str_int code ++ " - " ++ reason)
              :: match body with
                 | BodyText text => [text]
                 | BodyUndecodable _ => []
                 end |}.
Proof.
  intros Hnet.
  unfold Pixelart.run, Pixelart.try_block, Pixelart.seq, Pixelart.lift, Pixelart.print.
  rewrite Hnet. cbn [fst snd Pixelart.fs Pixelart.stdout].
  destruct body; [now rewrite <- app_assoc | reflexivity].
Qed.

Lemma run_http_error_witness :
  Pixelart.run None (fun _ => Raise (HTTPError 401 "Unauthorized" (BodyText "bad token")))
    empty_world
  = {| Pixelart.fs := ∅;
       Pixelart.stdout := ["HTTPError: 401 - Unauthorized"; "bad token"] |}.
Proof.
  apply (run_http_error None
           (fun _ => Raise (HTTPError 401 "Unauthorized" (BodyText "bad token")))
           empty_world 401 "Unauthorized" (BodyText "bad token") eq_refl).
Defined.

(** X11: a [URLError] of the exchange is printed as ["URLError: <reason>"],
    and any other exception of the exchange that is no [HTTPError], such as
    a body that is not JSON, as ["Unexpected error: <message>"].  Nothing
    else is printed and nothing is written. *)
Theorem run_exchange_raises
    (API_KEY : option string) (urlopen : network) (w : Pixelart.world) (e : exn) :
  urlopen (Pixelart.req API_KEY) = Raise e ->
  (forall code reason body, e <> HTTPError code reason body) ->
  Pixelart.run API_KEY urlopen w
  = {| Pixelart.fs := Pixelart.fs w;
       Pixelart.stdout :=
         Pixelart.stdout w
           ++ [match e with
               | URLError reason => "URLError: " ++ reason
               | _ => "Unexpected error: " ++ str_exn e
               end] |}.
Proof.
  intros Hnet He.
  unfold Pixelart.run, Pixelart.try_block, Pixelart.seq, Pixelart.lift, Pixelart.print.
  rewrite Hnet. cbn [fst snd Pixelart.fs Pixelart.stdout].
  destruct e; try reflexivity. now destruct (He code reason body).
Qed.

Lemma run_exchange_raises_witness :
  Pixelart.run None (fun _ => Raise (URLError "timed out")) empty_world
  = {| Pixelart.fs := ∅; Pixelart.stdout := ["URLError: timed out"] |}.
Proof.
  apply (run_exchange_raises None (fun _ => Raise (URLError "timed out")) empty_world
           (URLError "timed out") eq_refl).
  discriminate.
Defined.

(** ** pixelart.py: the shapes of the response *)

(** X12: a response that is a JSON array with at least one element is taken
    whole as the payload, and the decoder refuses a list: whatever the
    array holds, the script reports a decode failure and writes nothing. *)
Theorem run_array_response
    (API_KEY : option string) (urlopen : network) (w : Pixelart.world)
    (first : pyobj) (others : list pyobj) :
  urlopen (Pixelart.req API_KEY) = Return (PyList (first :: others)) ->
  Pixelart.extract (PyList (first :: others)) = Return (PyList (first :: others))
  /\ Pixelart.run API_KEY urlopen w
     = {| Pixelart.fs := Pixelart.fs w;
          Pixelart.stdout :=
            Pixelart.stdout w
              ++ [response_line (PyList (first :: others));
                  "Unexpected error: Base64 decode failed: argument should be a bytes-like object or ASCII string, not 'list'"] |}.
Proof.
  intros Hnet. split; [reflexivity|].
  exact (run_decode_raises API_KEY urlopen w (PyList (first :: others)) (PyList (first :: others))
           Hnet eq_refl _ eq_refl eq_refl).
Qed.

Lemma run_array_response_witness :
  Pixelart.fs (Pixelart.run None (fun _ => Return (PyList [PyStr "QUJD"])) empty_world) = ∅.
Proof.
  exact (f_equal Pixelart.fs
           (proj2 (run_array_response None (fun _ => Return (PyList [PyStr "QUJD"])) empty_world
                     (PyStr "QUJD") [] eq_refl))).
Defined.

(** X13: a response that is a JSON string is the payload itself.  When it
    is not empty and decodes to [image_data], and the two paths are free or
    hold a directory and a file, the image is saved. *)
Theorem run_string_response
    (API_KEY : option string) (urlopen : network) (w : Pixelart.world)
    (payload : string) (image_data : list byte) :
  urlopen (Pixelart.req API_KEY) = Return (PyStr payload) ->
  payload <> EmptyString ->
  Base64.b64decode (PyStr payload) = Return image_data ->
  Pixelart.fs w !! Pixelart.assets_folder = None
    \/ Pixelart.fs w !! Pixelart.assets_folder = Some Dir ->
  Pixelart.fs w !! Pixelart.output_file = None
    \/ (exists old, Pixelart.fs w !! Pixelart.output_file = Some (File old)) ->
  Pixelart.fs (Pixelart.run API_KEY urlopen w) !! Pixelart.output_file = Some (File image_data)
  /\ Pixelart.fs (Pixelart.run API_KEY urlopen w) !! Pixelart.assets_folder = Some Dir.
Proof.
  intros Hnet Hne Hd Hdir Hout.
  pose proof assets_not_output as Hao.
  rewrite (run_fs_returned API_KEY urlopen w _ Hnet).
  unfold files_after. cbn [Pixelart.extract].
  assert (Ht : truthy (PyStr payload) = true) by (destruct payload; [congruence | reflexivity]).
  rewrite Ht, Hd, saved_cases.
  destruct Hdir as [Ha | Ha]; rewrite Ha; destruct Hout as [Ho | [old Ho]]; rewrite Ho;
    rewrite ?lookup_insert_eq, ?(lookup_insert_ne _ _ _ _ (not_eq_sym Hao)), ?lookup_insert_eq;
    auto.
Qed.

Lemma run_string_response_witness :
  Pixelart.fs (Pixelart.run None (fun _ => Return (PyStr "QUJD")) empty_world)
    !! Pixelart.output_file = Some (File [x41; x42; x43]).
Proof.
  apply (proj1 (run_string_response None (fun _ => Return (PyStr "QUJD")) empty_world
                  "QUJD" [x41; x42; x43] eq_refl ltac:(discriminate) eq_refl
                  (or_introl eq_refl) (or_introl eq_refl))).
Defined.

(** X14: when the first element of [images] is neither an object nor a
    string (a number, [null], a boolean, a nested array), no payload is
    found: the script reports the missing image and writes nothing. *)
Theorem run_first_image_other_type
    (API_KEY : option string) (urlopen : network) (w : Pixelart.world)
    (response : list (string * pyobj)) (first : pyobj) (others : list pyobj) :
  urlopen (Pixelart.req API_KEY) = Return (PyDict response) ->
  dict_get "images" response = Some (PyList (first :: others)) ->
  isinstance_dict first || isinstance_str first = false ->
  Pixelart.run API_KEY urlopen w
  = {| Pixelart.fs := Pixelart.fs w;
       Pixelart.stdout :=
         Pixelart.stdout w
           ++ [response_line (PyDict response);
               "Unexpected error: No base64 image found in API response!"] |}.
Proof.
  intros Hnet Himages Hfirst.
  apply (run_no_image API_KEY urlopen w (PyDict response) PyNone Hnet); [|reflexivity].
  unfold Pixelart.extract. rewrite Himages. cbn [getitem_0 bind].
  destruct first; try reflexivity; discriminate.
Qed.

Lemma run_first_image_other_type_witness :
  Pixelart.run None (fun _ => Return (PyDict [("images", PyList [PyList [PyStr "QUJD"]])]))
    empty_world
  = {| Pixelart.fs := ∅;
       Pixelart.stdout :=
         [response_line (PyDict [("images", PyList [PyList [PyStr "QUJD"]])]);
          "Unexpected error: No base64 image found in API response!"] |}.
Proof.
  apply (run_first_image_other_type None
           (fun _ => Return (PyDict [("images", PyList [PyList [PyStr "QUJD"]])]))
           empty_world [("images", PyList [PyList [PyStr "QUJD"]])]
           (PyList [PyStr "QUJD"]) []); reflexivity.
Defined.

(** X15: when [images] is not an array, line 49 still indexes it.  An
    object, [null], a number, a boolean and the empty string make the
    indexing raise; a string that is not empty gives its first character,
    which is then wrapped in a list that the decoder refuses.  In every
    case the script prints one ["Unexpected error: ..."] line after the
    response and writes nothing. *)
Theorem run_images_not_array
    (API_KEY : option string) (urlopen : network) (w : Pixelart.world)
    (response : list (string * pyobj)) (images : pyobj) :
  urlopen (Pixelart.req API_KEY) = Return (PyDict response) ->
  dict_get "images" response = Some images ->
  isinstance_list images = false ->
  exists msg,
    Pixelart.run API_KEY urlopen w
    = {| Pixelart.fs := Pixelart.fs w;
         Pixelart.stdout :=
           Pixelart.stdout w
             ++ [response_line (PyDict response); "Unexpected error: " ++ msg] |}
    /\ msg = match images with
             | PyDict _ => "0"
             | PyStr EmptyString => "string index out of range"
             | PyStr (String _ _) =>
                 "Base64 decode failed: argument should be a bytes-like object or ASCII string, not 'list'"
             | _ => "'" ++ type_name images ++ "' object is not subscriptable"
             end.
Proof.
  intros Hnet Himages Hlist.
  eexists. split; [|reflexivity].
  destruct images as [| b | n | s | items | members]; try discriminate.
  - apply (run_extract_raises API_KEY urlopen w (PyDict response) Hnet
             (TypeError "'NoneType' object is not subscriptable"));
      [exact I | discriminate | unfold Pixelart.extract; now rewrite Himages].
  - apply (run_extract_raises API_KEY urlopen w (PyDict response) Hnet
             (TypeError "'bool' object is not subscriptable"));
      [exact I | discriminate | unfold Pixelart.extract; now rewrite Himages].
  - apply (run_extract_raises API_KEY urlopen w (PyDict response) Hnet
             (TypeError "'int' object is not subscriptable"));
      [exact I | discriminate | unfold Pixelart.extract; now rewrite Himages].
  - destruct s as [|c s].
    + apply (run_extract_raises API_KEY urlopen w (PyDict response) Hnet
               (IndexError "string index out of range"));
        [exact I | discriminate | unfold Pixelart.extract; now rewrite Himages].
    + assert (Hext : Pixelart.extract (PyDict response)
                     = Return (PyList [PyStr (String c EmptyString)]))
        by (unfold Pixelart.extract; now rewrite Himages).
      exact (run_decode_raises API_KEY urlopen w (PyDict response)
               (PyList [PyStr (String c EmptyString)]) Hnet Hext
               (TypeError "argument should be a bytes-like object or ASCII string, not 'list'")
               eq_refl eq_refl).
  - apply (run_extract_raises API_KEY urlopen w (PyDict response) Hnet (KeyError "0"));
      [exact I | discriminate | unfold Pixelart.extract; now rewrite Himages].
Qed.

Lemma run_images_not_array_witness :
  exists msg,
    Pixelart.run None (fun _ => Return (PyDict [("images", PyDict [("0", PyStr "QUJD")])]))
      empty_world
    = {| Pixelart.fs := ∅;
         Pixelart.stdout :=
           [response_line (PyDict [("images", PyDict [("0", PyStr "QUJD")])]);
            "Unexpected error: " ++ msg] |}
    /\ msg = "0".
Proof.
  apply (run_images_not_array None
           (fun _ => Return (PyDict [("images", PyDict [("0", PyStr "QUJD")])]))
           empty_world [("images", PyDict [("0", PyStr "QUJD")])]
           (PyDict [("0", PyStr "QUJD")])); reflexivity.
Defined.

(** The value of a key does not depend on where the key stands in an
    object whose keys differ. *)
Lemma dict_get_permutation (k : string) (d d' : list (string * pyobj)) :
  NoDup (map fst d) -> d ≡ₚ d' -> dict_get k d = dict_get k d'.
Proof.
  intros Hnd Hperm. induction Hperm as [| [k1 v1] l l' Hp IH | [k1 v1] [k2 v2] l | l l' l'' H1 IH1 H2 IH2].
  - reflexivity.
  - simpl. simpl in Hnd. apply NoDup_cons in Hnd as [_ Hnd]. now rewrite IH.
  - simpl. simpl in Hnd. apply NoDup_cons in Hnd as [Hnot _].
    destruct (String.eqb_spec k1 k) as [->|_]; [|reflexivity].
    destruct (String.eqb_spec k2 k) as [->|_]; [|reflexivity].
    exfalso. apply Hnot. now left.
  - rewrite IH1 by exact Hnd. apply IH2.
    assert (Hm : map fst l ≡ₚ map fst l') by now apply Permutation_map.
    now rewrite <- Hm.
Qed.

(** X16: which payload the extractor takes from the first image does not
    depend on the order of the keys in that object, nor on anything else in
    the response: for two first images with the same members in different
    orders the result is the same, the key that comes first in the list of
    line 53 deciding. *)
Theorem extract_key_order
    (response response' img_obj img_obj' : list (string * pyobj)) (others others' : list pyobj) :
  dict_get "images" response = Some (PyList (PyDict img_obj :: others)) ->
  dict_get "images" response' = Some (PyList (PyDict img_obj' :: others')) ->
  NoDup (map fst img_obj) -> img_obj ≡ₚ img_obj' ->
  Pixelart.extract (PyDict response) = Pixelart.extract (PyDict response').
Proof.
  intros Hr Hr' Hnd Hperm. unfold Pixelart.extract. rewrite Hr, Hr'.
  cbn [getitem_0 bind]. f_equal.
  induction Pixelart.candidate_keys as [|key keys IH]; simpl; [reflexivity|].
  rewrite (dict_get_permutation key img_obj img_obj' Hnd Hperm), IH. reflexivity.
Qed.

Lemma extract_key_order_witness :
  Pixelart.extract
    (PyDict [("images", PyList [PyDict [("data", PyStr "YQ=="); ("image", PyStr "QUJD")]])])
  = Pixelart.extract
      (PyDict [("images", PyList [PyDict [("image", PyStr "QUJD"); ("data", PyStr "YQ==")]])]).
Proof.
  apply (extract_key_order
           [("images", PyList [PyDict [("data", PyStr "YQ=="); ("image", PyStr "QUJD")]])]
           [("images", PyList [PyDict [("image", PyStr "QUJD"); ("data", PyStr "YQ==")]])]
           [("data", PyStr "YQ=="); ("image", PyStr "QUJD")]
           [("image", PyStr "QUJD"); ("data", PyStr "YQ==")] [] []).
  - reflexivity.
  - reflexivity.
  - compute_done.
  - apply perm_swap.
Defined.

(** ** pixelart.py: the files and the messages *)

(** X17: when the payload decodes but a file stands where the directory
    [./assets] should be, or a directory where the image should be written
    inside an existing [./assets], the script prints ["Base64 decode: OK"]
    and then one ["Unexpected error: ..."] line, and the files stay as they
    were. *)
Theorem run_path_in_the_way
    (API_KEY : option string) (urlopen : network) (w : Pixelart.world)
    (response_data base64_images : pyobj) (image_data : list byte) :
  urlopen (Pixelart.req API_KEY) = Return response_data ->
  Pixelart.extract response_data = Return base64_images ->
  truthy base64_images = true ->
  Base64.b64decode base64_images = Return image_data ->
  (exists content, Pixelart.fs w !! Pixelart.assets_folder = Some (File content))
  \/ (Pixelart.fs w !! Pixelart.assets_folder = Some Dir
      /\ Pixelart.fs w !! Pixelart.output_file = Some Dir) ->
  exists msg,
    Pixelart.run API_KEY urlopen w
    = {| Pixelart.fs := Pixelart.fs w;
         Pixelart.stdout :=
           Pixelart.stdout w
             ++ [response_line response_data; "Base64 decode: OK";
                 "Unexpected error: " ++ msg] |}.
Proof.
  intros Hnet Hext Ht Hd Hway.
  rewrite (run_decoded API_KEY urlopen w _ _ Hnet Hext image_data Ht Hd).
  cbv zeta. unfold makedirs_exist_ok, write_binary.
  change (os_path_join Pixelart.assets_folder Pixelart.output_name) with Pixelart.output_file.
  destruct Hway as [[content Ha] | [Ha Ho]]; rewrite Ha.
  - eexists. rewrite <- app_assoc. reflexivity.
  - rewrite Ha, Ho. eexists. rewrite <- app_assoc. reflexivity.
Qed.

Lemma run_path_in_the_way_witness :
  exists msg,
    Pixelart.run None (fun _ => Return (image_response "QUJD"))
      {| Pixelart.fs := {["./assets" := File []]}; Pixelart.stdout := [] |}
    = {| Pixelart.fs := {["./assets" := File []]};
         Pixelart.stdout :=
           [response_line (image_response "QUJD"); "Base64 decode: OK";
            "Unexpected error: " ++ msg] |}.
Proof.
  destruct (run_path_in_the_way None (fun _ => Return (image_response "QUJD"))
              {| Pixelart.fs := {["./assets" := File []]}; Pixelart.stdout := [] |}
              (image_response "QUJD") (PyStr "QUJD") [x41; x42; x43]) as [msg Hmsg];
    try reflexivity.
  - left. exists []. reflexivity.
  - exists msg. exact Hmsg.
Defined.

(** The extractor raises what indexing raises: no [HTTPError], no
    [URLError]. *)
Lemma extract_raises (response_data : pyobj) (e : exn) :
  Pixelart.extract response_data = Raise e ->
  plain (@Raise pyobj e) /\ forall reason, e <> URLError reason.
Proof.
  unfold Pixelart.extract.
  destruct response_data as [| b | n | s | [|x items] | members]; try discriminate.
  destruct (dict_get "images" members) as [[| b | n | [|c s] | [|x items] | d]|];
    cbn [getitem_0 bind]; try discriminate;
    try (destruct x; discriminate);
    intros [= <-]; split; try exact I; discriminate.
Qed.

(** What a run prints once the exchange has returned: the response, then
    either the report of a failure or the two lines of a success. *)
Lemma run_stdout_returned
    (API_KEY : option string) (urlopen : network) (w : Pixelart.world) (response_data : pyobj) :
  urlopen (Pixelart.req API_KEY) = Return response_data ->
  (Pixelart.fs (Pixelart.run API_KEY urlopen w) !! Pixelart.output_file
     = Pixelart.fs w !! Pixelart.output_file
   /\ exists msg,
       Pixelart.stdout (Pixelart.run API_KEY urlopen w)
       = (Pixelart.stdout w ++ [response_line response_data; ("Unexpected error: " ++ msg)%string])%list
         \/ Pixelart.stdout (Pixelart.run API_KEY urlopen w)
            = (Pixelart.stdout w ++ [response_line response_data; "Base64 decode: OK";
                                     ("Unexpected error: " ++ msg)%string])%list)
  \/ (exists d,
        Pixelart.fs (Pixelart.run API_KEY urlopen w) !! Pixelart.output_file = Some (File d)
        /\ Pixelart.stdout (Pixelart.run API_KEY urlopen w)
           = (Pixelart.stdout w ++ [response_line response_data; "Base64 decode: OK";
                                    "Image saved to ./assets/output1.png"])%list).
Proof.
  intros Hnet. pose proof assets_not_output as Hne.
  destruct (Pixelart.extract response_data) as [p|e] eqn:Hext.
  - destruct (truthy p) eqn:Ht.
    + destruct (Base64.b64decode p) as [d|e] eqn:Hd.
      * rewrite (run_decoded API_KEY urlopen w _ _ Hnet Hext d Ht Hd). cbv zeta.
        unfold makedirs_exist_ok, write_binary.
        change (os_path_join Pixelart.assets_folder Pixelart.output_name)
          with Pixelart.output_file.
        destruct (Pixelart.fs w !! Pixelart.assets_folder) as [[|c]|] eqn:Ha;
          rewrite ?Ha, ?lookup_insert_eq, ?(lookup_insert_ne _ _ _ _ Hne);
          try (destruct (Pixelart.fs w !! Pixelart.output_file) as [[|c']|] eqn:Ho);
          cbn [Pixelart.fs Pixelart.stdout];
          rewrite <- ?app_assoc; cbn [app];
          first [ right; exists d; split; [apply lookup_insert_eq | reflexivity]
                | left; split;
                  [rewrite ?(lookup_insert_ne _ _ _ _ Hne); try reflexivity; now rewrite Ho
                  | eexists; right; reflexivity] ].
      * rewrite (run_decode_raises API_KEY urlopen w _ _ Hnet Hext e Ht Hd).
        left. split; [reflexivity|]. eexists. left. reflexivity.
    + rewrite (run_no_image API_KEY urlopen w _ _ Hnet Hext Ht).
      left. split; [reflexivity|]. eexists. left. reflexivity.
  - destruct (extract_raises _ _ Hext) as [Hp Hu].
    rewrite (run_extract_raises API_KEY urlopen w _ Hnet e Hp Hu Hext).
    left. split; [reflexivity|]. eexists. left. reflexivity.
Qed.

(** X18: the output path changes only in a run that succeeds: if after a
    run it is not what it was before, then the exchange returned a
    response, the path now holds a file, and the run printed the response,
    ["Base64 decode: OK"] and where the image was saved. *)
Theorem output_changes_only_on_success
    (API_KEY : option string) (urlopen : network) (w : Pixelart.world) :
  Pixelart.fs (Pixelart.run API_KEY urlopen w) !! Pixelart.output_file
    <> Pixelart.fs w !! Pixelart.output_file ->
  exists response_data d,
    urlopen (Pixelart.req API_KEY) = Return response_data
    /\ Pixelart.fs (Pixelart.run API_KEY urlopen w) !! Pixelart.output_file = Some (File d)
    /\ Pixelart.stdout (Pixelart.run API_KEY urlopen w)
       = (Pixelart.stdout w ++ [response_line response_data; "Base64 decode: OK";
                                "Image saved to ./assets/output1.png"])%list.
Proof.
  intros Hchanged.
  destruct (urlopen (Pixelart.req API_KEY)) as [r|e] eqn:Hnet.
  - destruct (run_stdout_returned API_KEY urlopen w r Hnet) as [[Hsame _] | [d [Hd Hout]]].
    + contradiction.
    + exists r, d. auto.
  - rewrite (run_fs_raised API_KEY urlopen w e Hnet) in Hchanged. contradiction.
Qed.

Lemma output_changes_only_on_success_witness :
  exists response_data d,
    Return (image_response "QUJD") = Return response_data
    /\ Pixelart.fs (Pixelart.run None (fun _ => Return (image_response "QUJD")) empty_world)
         !! Pixelart.output_file = Some (File d)
    /\ Pixelart.stdout (Pixelart.run None (fun _ => Return (image_response "QUJD")) empty_world)
       = [response_line response_data; "Base64 decode: OK";
          "Image saved to ./assets/output1.png"].
Proof.
  destruct (output_changes_only_on_success None (fun _ => Return (image_response "QUJD"))
              empty_world) as [r [d H]].
  - vm_compute. discriminate.
  - exists r, d. exact H.
Defined.

(** X19: every run prints at least one line and keeps what was printed
    before; when the exchange returned a response, the first line printed
    is that response serialised with an indent of four. *)
Theorem run_always_prints
    (API_KEY : option string) (urlopen : network) (w : Pixelart.world) :
  exists line lines,
    Pixelart.stdout (Pixelart.run API_KEY urlopen w)
    = (Pixelart.stdout w ++ line :: lines)%list
    /\ forall response_data,
        urlopen (Pixelart.req API_KEY) = Return response_data ->
        line = "Response Data: " ++ Json.dumps_indent 0 response_data.
Proof.
  destruct (urlopen (Pixelart.req API_KEY)) as [r|e] eqn:Hnet.
  - destruct (run_stdout_returned API_KEY urlopen w r Hnet)
      as [[_ [msg [H | H]]] | [d [_ H]]];
      rewrite H; do 2 eexists; (split; [reflexivity|]); now intros r' [= <-].
  - unfold Pixelart.run, Pixelart.try_block, Pixelart.seq, Pixelart.lift, Pixelart.print.
    rewrite Hnet. cbn [fst snd Pixelart.fs Pixelart.stdout].
    destruct e; try destruct body; cbn [fst snd Pixelart.fs Pixelart.stdout];
      rewrite <- ?app_assoc; do 2 eexists; (split; [reflexivity | discriminate]).
Qed.

Lemma run_always_prints_witness :
  exists line lines,
    Pixelart.stdout (Pixelart.run None (fun _ => Return (PyList [])) empty_world)
    = line :: lines
    /\ forall response_data,
        Return (PyList []) = Return response_data ->
        line = "Response Data: " ++ Json.dumps_indent 0 response_data.
Proof.
  destruct (run_always_prints None (fun _ => Return (PyList [])) empty_world)
    as [line [lines H]].
  exists line, lines. exact H.
Defined.

(** ** gemini_api_bridge.py: from the command line to standard output *)

(** X20: with no usable environment variables and the key and the message
    given as the two arguments, a response whose first part holds the
    string [t] under [text] makes the process print exactly [t], without
    quotes, on standard output, nothing on standard error, and end with
    status 0. *)
Theorem main_prints_text
    (environ : gmap string string) (urlopen : network) (script k m t : string)
    (response candidate content part : list (string * pyobj))
    (other_candidates other_parts : list pyobj) :
  environ !! "GEMINI_API_KEY" = None \/ environ !! "GEMINI_API_KEY" = Some EmptyString
    \/ environ !! "GEMINI_MESSAGE" = None \/ environ !! "GEMINI_MESSAGE" = Some EmptyString ->
  urlopen (GeminiApiBridge.build_request k m) = Return (PyDict response) ->
  dict_get "candidates" response = Some (PyList (PyDict candidate :: other_candidates)) ->
  dict_get "content" candidate = Some (PyDict content) ->
  dict_get "parts" content = Some (PyList (PyDict part :: other_parts)) ->
  dict_get "text" part = Some (PyStr t) ->
  GeminiApiBridge.main environ [script; k; m] urlopen
  = {| GeminiApiBridge.ended := GeminiApiBridge.Exit 0;
       GeminiApiBridge.stdout := [t];
       GeminiApiBridge.stderr := [] |}.
Proof.
  intros Henv Hnet Hc Hct Hp Ht.
  unfold GeminiApiBridge.main.
  assert (Hb : GeminiApiBridge.unset_or_empty (environ !! "GEMINI_API_KEY")
               || GeminiApiBridge.unset_or_empty (environ !! "GEMINI_MESSAGE") = true).
  { destruct Henv as [-> | [-> | [-> | ->]]]; simpl; try reflexivity; apply orb_true_r. }
  rewrite Hb. cbn [length Nat.eqb negb nth].
  unfold GeminiApiBridge.call_and_print.
  rewrite (call_gemini_api_response urlopen k m _ Hnet).
  unfold GeminiApiBridge.response_text.
  repeat (cbn [py_contains getitem_key getitem_0 py_len py_get bind length Nat.ltb Nat.leb];
          rewrite ?Hc, ?Hct, ?Hp, ?Ht).
  reflexivity.
Qed.

Lemma main_prints_text_witness :
  GeminiApiBridge.main ∅ ["gemini_api_bridge.py"; "k"; "hello"]
    (fun _ => Return scenario_response)
  = {| GeminiApiBridge.ended := GeminiApiBridge.Exit 0;
       GeminiApiBridge.stdout := ["hi there"];
       GeminiApiBridge.stderr := [] |}.
Proof.
  apply (main_prints_text ∅ (fun _ => Return scenario_response)
           "gemini_api_bridge.py" "k" "hello" "hi there"
           [("candidates",
             PyList [PyDict [("content",
                              PyDict [("parts", PyList [PyDict [("text", PyStr "hi there")]])])]])]
           [("content", PyDict [("parts", PyList [PyDict [("text", PyStr "hi there")]])])]
           [("parts", PyList [PyDict [("text", PyStr "hi there")]])]
           [("text", PyStr "hi there")] [] []); try reflexivity.
  left. reflexivity.
Defined.

(** ** pixelart.py: the five keys *)

(** X21: a first image with a single member gives that member's value as
    the payload exactly when its key is one of [image_b64], [image],
    [base64], [data] and [base64_images]; under any other key no payload
    is found. *)
Theorem extract_single_key (key : string) (x : pyobj) :
  (In key Pixelart.candidate_keys ->
   Pixelart.extract (PyDict [("images", PyList [PyDict [(key, x)]])]) = Return x)
  /\ (~ In key Pixelart.candidate_keys ->
      Pixelart.extract (PyDict [("images", PyList [PyDict [(key, x)]])]) = Return PyNone).
Proof.
  split.
  - intros [<- | [<- | [<- | [<- | [<- | []]]]]]; reflexivity.
  - intros Hnot.
    cbn [Pixelart.extract dict_get String.eqb Ascii.eqb Bool.eqb getitem_0 bind].
    f_equal. revert Hnot.
    induction Pixelart.candidate_keys as [|k keys IH]; intros Hnot; simpl; [reflexivity|].
    destruct (String.eqb_spec key k) as [->|_].
    + exfalso. apply Hnot. now left.
    + apply IH. intros Hin. apply Hnot. now right.
Qed.

Lemma extract_single_key_witness :
  Pixelart.extract (PyDict [("images", PyList [PyDict [("data", PyStr "QUJD")]])])
    = Return (PyStr "QUJD")
  /\ Pixelart.extract (PyDict [("images", PyList [PyDict [("b64", PyStr "QUJD")]])])
     = Return PyNone.
Proof.
  split.
  - apply (proj1 (extract_single_key "data" (PyStr "QUJD"))).
    right. right. right. left. reflexivity.
  - apply (proj2 (extract_single_key "b64" (PyStr "QUJD"))).
    intros [H | [H | [H | [H | [H | []]]]]]; discriminate H.
Defined.
